(** * VortexL2: DNS selection and socat port forwarding

    A shallow embedding of the decision logic of [vortexl2/dns_manager.py],
    [vortexl2/socat_manager.py], the port bookkeeping of
    [vortexl2/easytier_manager.py], the forward-mode switch of
    [vortexl2/main.py] and the interval prompt of [vortexl2/dns_ui.py],
    followed by the vocabulary of the statements and by the properties
    proved about the code.

    Conventions of the embedding:
    - a Python [str] is a Rocq [string] holding its UTF-8 bytes;
    - a Python [int] is a [Z];
    - a Python [float] holding a duration is an exact rational [Q]; the
      result of [round(x, 1)] is kept as the tenth it denotes, and where
      such results enter float arithmetic again (the mean of
      [score_dns]) the binary64 numbers nearest to the operands and to
      each result are taken ([Py.binary64]);
    - everything the code asks of the host (sub-processes, the clock, file
      writes) is an [Event] answered by the environment of the [Host];
    - Python exceptions are values of [exn], threaded by the monad [M]. *)

From Stdlib Require Import QArith Qabs Qround ZArith String Ascii List Lia.
From stdpp Require Import base gmap list strings pretty.

Open Scope string_scope.
Open Scope list_scope.
Open Scope Z_scope.

(** ** Python built-ins used by the code *)

Module Py.

(** Line feed, the ["\n"] of the source. *)
Definition nl : string := String "010"%char "".

Definition code (c : ascii) : N := N_of_ascii c.

(** The characters for which [str.isspace] holds, by UTF-8 length:
    U+0009..U+000D, U+001C..U+0020 (one byte), U+0085 and U+00A0 (two
    bytes), U+1680, U+2000..U+200A, U+2028, U+2029, U+202F, U+205F and
    U+3000 (three bytes). *)
Definition is_space1 (c : ascii) : bool :=
  let n := code c in
  ((9 <=? n) && (n <=? 13) || (28 <=? n) && (n <=? 32))%N.

Definition is_space2 (c1 c2 : ascii) : bool :=
  ((code c1 =? 194) && ((code c2 =? 133) || (code c2 =? 160)))%N.

Definition is_space3 (c1 c2 c3 : ascii) : bool :=
  let n1 := code c1 in
  let n2 := code c2 in
  let n3 := code c3 in
  ((n1 =? 225) && (n2 =? 154) && (n3 =? 128)
   || (n1 =? 226) && (n2 =? 128)
      && ((128 <=? n3) && (n3 <=? 138) || (n3 =? 168) || (n3 =? 169)
          || (n3 =? 175))
   || (n1 =? 226) && (n2 =? 129) && (n3 =? 159)
   || (n1 =? 227) && (n2 =? 128) && (n3 =? 128))%N.

(** Drops the longest run of encoded characters accepted by [p1], [p2],
    [p3] from the front of [s]. *)
Fixpoint strip_front (p1 : ascii -> bool) (p2 : ascii -> ascii -> bool)
    (p3 : ascii -> ascii -> ascii -> bool) (s : string) : string :=
  match s with
  | EmptyString => s
  | String c1 s1 =>
      if p1 c1 then strip_front p1 p2 p3 s1
      else
        match s1 with
        | EmptyString => s
        | String c2 s2 =>
            if p2 c1 c2 then strip_front p1 p2 p3 s2
            else
              match s2 with
              | EmptyString => s
              | String c3 s3 =>
                  if p3 c1 c2 c3 then strip_front p1 p2 p3 s3 else s
              end
        end
  end.

Definition lstrip (s : string) : string :=
  strip_front is_space1 is_space2 is_space3 s.

(** Trailing white space is leading white space of the reversed bytes,
    with the bytes of each character read backwards. *)
Definition rstrip (s : string) : string :=
  String.rev
    (strip_front is_space1 (fun c2 c1 => is_space2 c1 c2)
       (fun c3 c2 c1 => is_space3 c1 c2 c3) (String.rev s)).

(** [s.strip()] *)
Definition strip (s : string) : string := rstrip (lstrip s).

(** [s.split(sep)] for a one-character separator: never empty. *)
Fixpoint split (sep : ascii) (s : string) : list string :=
  match s with
  | EmptyString => [EmptyString]
  | String c s' =>
      if Ascii.eqb c sep then EmptyString :: split sep s'
      else
        match split sep s' with
        | [] => [String c EmptyString]
        | w :: ws => String c w :: ws
        end
  end.

(** [c in s] for a one-character [c]. *)
Fixpoint contains (c : ascii) (s : string) : bool :=
  match s with
  | EmptyString => false
  | String d s' => Ascii.eqb c d || contains c s'
  end.



(** [sep.join(l)] *)
Fixpoint join (sep : string) (l : list string) : string :=
  match l with
  | [] => ""
  | [x] => x
  | x :: xs => x +:+ sep +:+ join sep xs
  end.

(** [str(n)] and the [{n}] of an f-string, for an [int]. *)
Definition str_of_int (n : Z) : string := pretty n.

Definition is_digit (c : ascii) : bool :=
  ((48 <=? code c) && (code c <=? 57))%N.

Definition digit_value (c : ascii) : Z := Z.of_N (code c) - 48.

(** Decimal digits, single underscores allowed between two digits.
    [prev] tells whether the previous character was a digit. *)
Fixpoint digits (acc : Z) (prev : bool) (s : string) : option Z :=
  match s with
  | EmptyString => if prev then Some acc else None
  | String c s' =>
      if is_digit c then digits (10 * acc + digit_value c) true s'
      else if Ascii.eqb c "_"%char then
        if prev then digits acc false s' else None
      else None
  end.

(** The white space [int] skips around a numeral: that of C's
    [isspace]. *)
Definition is_c_space (c : ascii) : bool :=
  let n := code c in
  ((9 <=? n) && (n <=? 13) || (n =? 32))%N.

Fixpoint skip_c_space (s : string) : string :=
  match s with
  | EmptyString => s
  | String c s' => if is_c_space c then skip_c_space s' else s
  end.

Definition strip_c_space (s : string) : string :=
  String.rev (skip_c_space (String.rev (skip_c_space s))).

(** The code points of the digits zero of Unicode 14.0, the version of
    CPython 3.11: each starts a run of the ten decimal digits of one
    script.  These are all the characters with a decimal value. *)
Definition decimal_zeros : list N :=
  [48; 1632; 1776; 1984; 2406; 2534; 2662; 2790; 2918; 3046; 3174; 3302;
   3430; 3558; 3664; 3792; 3872; 4160; 4240; 6112; 6160; 6470; 6608; 6784;
   6800; 6992; 7088; 7232; 7248; 42528; 43216; 43264; 43472; 43504; 43600;
   44016; 65296; 66720; 68912; 69734; 69872; 69942; 70096; 70384; 70736;
   70864; 71248; 71360; 71472; 71904; 72016; 72784; 73040; 73120; 92768;
   92864; 93008; 120782; 120792; 120802; 120812; 120822; 123200; 123632;
   125264; 130032]%N.

(** [unicodedata.decimal(chr(cp))], if the character has one. *)
Definition decimal_value (cp : N) : option N :=
  match List.find (fun z => (z <=? cp) && (cp <? z + 10))%N decimal_zeros with
  | Some z => Some (cp - z)%N
  | None => None
  end.

(** The white space beyond ASCII, by code point. *)
Definition is_unicode_space (cp : N) : bool :=
  ((cp =? 133) || (cp =? 160) || (cp =? 5760)
   || (8192 <=? cp) && (cp <=? 8202) || (cp =? 8232) || (cp =? 8233)
   || (cp =? 8239) || (cp =? 8287) || (cp =? 12288))%N.

(** What [int] reads in place of a character: the character itself up to
    U+007E, a space for white space beyond ASCII, the ASCII digit for a
    decimal digit of any script, and a question mark, which no numeral
    contains, for any other. *)
Definition to_ascii (cp : N) : ascii :=
  if (cp <? 127)%N then ascii_of_N cp
  else if is_unicode_space cp then " "%char
  else
    match decimal_value cp with
    | Some d => ascii_of_N (48 + d)
    | None => "?"%char
    end.

(** The text [int] parses: each character of [s], decoded from UTF-8,
    replaced as [to_ascii] tells.  A truncated sequence, which no Python
    string holds, reads as a question mark. *)
Fixpoint transform (s : string) : string :=
  match s with
  | EmptyString => EmptyString
  | String c1 s1 =>
      let n1 := code c1 in
      if (n1 <? 128)%N then String (to_ascii n1) (transform s1)
      else
        match s1 with
        | EmptyString => "?"
        | String c2 s2 =>
            let n2 := ((n1 - 192) * 64 + (code c2 - 128))%N in
            if (n1 <? 224)%N then String (to_ascii n2) (transform s2)
            else
              match s2 with
              | EmptyString => "?"
              | String c3 s3 =>
                  let n3 := (((n1 - 224) * 64 + (code c2 - 128)) * 64
                             + (code c3 - 128))%N in
                  if (n1 <? 240)%N then String (to_ascii n3) (transform s3)
                  else
                    match s3 with
                    | EmptyString => "?"
                    | String c4 s4 =>
                        let n4 := ((((n1 - 240) * 64 + (code c2 - 128)) * 64
                                    + (code c3 - 128)) * 64
                                   + (code c4 - 128))%N in
                        String (to_ascii n4) (transform s4)
                    end
              end
        end
  end.

(** [int(s)] in base ten; [None] stands for [ValueError].  As CPython
    does it: the text is replaced by [transform], C white space is skipped
    at both ends, a sign may come first, and what remains must be digits,
    with single underscores allowed between them.  The limit on the
    number of digits ([sys.set_int_max_str_digits]) is not modelled. *)
Definition int (s : string) : option Z :=
  match strip_c_space (transform s) with
  | String "+"%char r => digits 0 false r
  | String "-"%char r => Z.opp <$> digits 0 false r
  | r => digits 0 false r
  end.

(** [list(range(start, stop))] *)
Definition range (start stop : Z) : list Z := seqZ start (stop - start).

(** Nearest integer, ties to the even one. *)
Definition round_half_even (q : Q) : Z :=
  let f := Qfloor q in
  match Qcompare (q - inject_Z f) (1 # 2) with
  | Lt => f
  | Gt => f + 1
  | Eq => if Z.even f then f else f + 1
  end.

(** [round(q, 1)]: the nearest multiple of one tenth. *)
Definition round1 (q : Q) : Q := round_half_even (q * 10) # 10.

(** [2 ^ e], for any integer [e]. *)
Definition pow2 (e : Z) : Q :=
  if 0 <=? e then inject_Z (2 ^ e) else 1 # Z.to_pos (2 ^ (- e)).

(** The binary64 number nearest to [q], ties going to the even
    significand: what a float operation returns whose exact result is
    [q].  The exponent [k] of [q] is [l] or [l - 1]; the unit in the last
    place is [2 ^ (k - 52)], and [2 ^ -1074] for subnormal numbers.
    Overflow is not modelled. *)
Definition binary64 (q : Q) : Q :=
  if Qeq_bool q 0 then 0%Q
  else
    let a := Qabs q in
    let l := Z.log2 (Z.abs (Qnum q)) - Z.log2 (Zpos (Qden q)) in
    let k := if Qle_bool (pow2 l) a then l else l - 1 in
    let e := Z.max (k - 52) (-1074) in
    let v := (inject_Z (round_half_even (a / pow2 e)) * pow2 e)%Q in
    if Qle_bool 0 q then v else (- v)%Q.

(** [x + y] and [x / y] on floats. *)
Definition fadd (x y : Q) : Q := binary64 (x + y).
Definition fdiv (x y : Q) : Q := binary64 (x / y).

(** [str(x)] for a float [x] that is a multiple of one tenth, as
    [round1] returns, in the range Python prints without exponent. *)
Definition str_of_float1 (q : Q) : string :=
  let z := round_half_even (q * 10) in
  (if z <? 0 then "-" else "")
  +:+ pretty (Z.abs z / 10) +:+ "." +:+ pretty (Z.abs z mod 10).

(** [sorted(l, key=key)]: Python's sort is stable and compares keys
    with [<] only.  [insert_by x l] puts [x] in front of the first
    element whose key is not smaller than the key of [x]. *)
Fixpoint insert_by {A} (key : A -> Q) (x : A) (l : list A) : list A :=
  match l with
  | [] => [x]
  | y :: ys =>
      if Qlt_le_dec (key y) (key x) then y :: insert_by key x ys
      else x :: y :: ys
  end.

Fixpoint sorted {A} (key : A -> Q) (l : list A) : list A :=
  match l with
  | [] => []
  | x :: xs => insert_by key x (sorted key xs)
  end.

End Py.

(** ** The tunnel configuration object

    [EasyTierConfig] of [easytier_manager.py]: the keys of its dictionary
    and its [_auto_save] flag. *)

Module EasyTierConfig.

Record t : Type := {
  name : string;
  local_ip : string;
  peer_ip : option string;
  port : Z;
  network_secret : string;
  interface_name : string;
  hostname : string;
  forwarded_ports : list Z;
  remote_forward_ip : option string;
  auto_save : bool
}.

(** [self._config["forwarded_ports"] = value] *)
Definition set_forwarded_ports (c : t) (value : list Z) : t :=
  {| name := name c; local_ip := local_ip c; peer_ip := peer_ip c;
     port := port c; network_secret := network_secret c;
     interface_name := interface_name c; hostname := hostname c;
     forwarded_ports := value; remote_forward_ip := remote_forward_ip c;
     auto_save := auto_save c |}.

End EasyTierConfig.

(** ** The host: effects, exceptions and the monad threading them *)

Module Host.

(** The exception classes the code raises or handles; each carries the
    text [str(e)] gives. *)
Inductive exn : Type :=
| TimeoutExpired (msg : string)
| OSError (msg : string)
| ValueError (msg : string)
| AttributeError (msg : string)
| IndexError (msg : string).

Definition str_of_exn (e : exn) : string :=
  match e with
  | TimeoutExpired m | OSError m | ValueError m | AttributeError m
  | IndexError m => m
  end.

(** What [subprocess.run] is given: an argument vector, or one line for
    the shell ([shell=True]). *)
Inductive Command : Type :=
| Argv (argv : list string)
| ShellLine (line : string).

(** Everything the code does to the host, in the order it does it. *)
Inductive Event : Type :=
| Spawn (cmd : Command) (timeout : option Q)
| ReadClock
| Sleep (seconds : Q)
| WriteFile (path content : string)
| SaveDnsConfig (dns_ip dns_name : string)
| SaveTunnel (name : string) (forwarded_ports : list Z)
| SetForwardMode (mode : string)
| Confirm (question : string).

(** How a sub-process ends: it exits, it exceeds the timeout, or it
    cannot be run at all. *)
Inductive ProcOutcome : Type :=
| Exited (returncode : Z) (stdout stderr : string)
| TimedOut
| SpawnError (msg : string).

(** [subprocess.CompletedProcess], with the output captured as text. *)
Record CompletedProcess : Type := {
  returncode : Z;
  stdout : string;
  stderr : string
}.

(** The environment answers each request knowing what was done before. *)
Record Env : Type := {
  spawn : list Event -> Command -> option Q -> ProcOutcome;
  clock : list Event -> Q;
  write : list Event -> string -> string -> option string;
  save : list Event -> Event -> option string;
  answer : list Event -> string -> bool
}.

(** The state the code runs in: the events so far (oldest first), the
    environment, the configuration object a forward manager holds in
    [self.config], and the persisted forward mode. *)
Record World : Type := {
  trace : list Event;
  env : Env;
  config : option EasyTierConfig.t;
  forward_mode : string
}.

Definition log (e : Event) (w : World) : World :=
  {| trace := trace w ++ [e]; env := env w; config := config w;
     forward_mode := forward_mode w |}.

Definition with_config (c : option EasyTierConfig.t) (w : World) : World :=
  {| trace := trace w; env := env w; config := c;
     forward_mode := forward_mode w |}.

Definition with_forward_mode (m : string) (w : World) : World :=
  {| trace := trace w; env := env w; config := config w;
     forward_mode := m |}.

Inductive result (A : Type) : Type :=
| Ok (a : A)
| Raise (e : exn).
Arguments Ok {A} a.
Arguments Raise {A} e.

Definition M (A : Type) : Type := World -> result A * World.

Definition ret {A} (a : A) : M A := fun w => (Ok a, w).

Definition bind {A B} (m : M A) (k : A -> M B) : M B :=
  fun w =>
    match m w with
    | (Ok a, w') => k a w'
    | (Raise e, w') => (Raise e, w')
    end.

Definition raise {A} (e : exn) : M A := fun w => (Raise e, w).

(** [try: m  except ...: h e] *)
Definition catch {A} (m : M A) (h : exn -> M A) : M A :=
  fun w =>
    match m w with
    | (Ok a, w') => (Ok a, w')
    | (Raise e, w') => h e w'
    end.

Definition get_config : M (option EasyTierConfig.t) :=
  fun w => (Ok (config w), w).

Definition put_config (c : EasyTierConfig.t) : M unit :=
  fun w => (Ok tt, with_config (Some c) w).

(** [subprocess.run(cmd, ..., timeout=timeout)] with captured output. *)
Definition subprocess_run (cmd : Command) (timeout : option Q)
  : M CompletedProcess :=
  fun w =>
    let w' := log (Spawn cmd timeout) w in
    match spawn (env w) (trace w) cmd timeout with
    | Exited rc out err =>
        (Ok {| returncode := rc; stdout := out; stderr := err |}, w')
    | TimedOut => (Raise (TimeoutExpired "Command timed out"), w')
    | SpawnError msg => (Raise (OSError msg), w')
    end.

(** [time.time()], in seconds. *)
Definition time : M Q :=
  fun w => (Ok (clock (env w) (trace w)), log ReadClock w).

(** [time.sleep(seconds)] *)
Definition sleep (seconds : Q) : M unit :=
  fun w => (Ok tt, log (Sleep seconds) w).

(** [with open(path, "w") as f: f.write(content)] *)
Definition write_file (path content : string) : M unit :=
  fun w =>
    let w' := log (WriteFile path content) w in
    match write (env w) (trace w) path content with
    | None => (Ok tt, w')
    | Some msg => (Raise (OSError msg), w')
    end.

(** A configuration document rewritten by the program's own persistence
    layer ([mkdir], [open], [yaml.dump], [chmod]); the event names the
    document and what goes into it.  Like any file operation it can fail:
    the environment tells with which [OSError]. *)
Definition persist (e : Event) : M unit :=
  fun w =>
    let w' := log e w in
    match save (env w) (trace w) e with
    | None => (Ok tt, w')
    | Some msg => (Raise (OSError msg), w')
    end.

(** [ui.Confirm.ask(question, ...)]: the operator's answer. *)
Definition confirm (question : string) : M bool :=
  fun w => (Ok (answer (env w) (trace w) question), log (Confirm question) w).

(** What a computation returns or raises, and the world it leaves. *)
Definition run {A} (m : M A) (w : World) : result A := fst (m w).
Definition exec {A} (m : M A) (w : World) : World := snd (m w).

(** The events a computation added to the trace. *)
Definition emitted {A} (m : M A) (w : World) : list Event :=
  drop (length (trace w)) (trace (exec m w)).

End Host.

Export Host.

Declare Scope monad_scope.
Delimit Scope monad_scope with monad.
Notation "x <- m ;; k" := (bind m (fun x => k))
  (at level 100, m at next level, right associativity) : monad_scope.
Notation "m ;;; k" := (bind m (fun _ => k))
  (at level 100, right associativity) : monad_scope.
Open Scope monad_scope.

(** ** [vortexl2/dns_manager.py] *)

Module Dns.

Definition TEST_DOMAIN_1 : string := "chatgpt.com".
Definition TEST_DOMAIN_2 : string := "one.one.one.one".

(** seconds for nslookup *)
Definition TIMEOUT : Q := 2.8.
(** repetitions for averaging *)
Definition REPEAT : nat := 2.

Definition RAW_DNS_LIST : list (string * string) := [
  ("رادار", "10.202.10.10");
  ("رادار", "10.202.10.11");
  ("سرویس 403", "10.202.10.202");
  ("سرویس 403", "10.202.10.102");
  ("بگذر", "185.55.226.26");
  ("بگذر", "185.55.225.25");
  ("شکن", "178.22.122.100");
  ("شکن", "185.51.200.2");
  ("شاتل", "85.15.1.14");
  ("شاتل", "85.15.1.15");
  ("الکترو", "78.157.42.100");
  ("الکترو", "78.157.42.101");
  ("هاستیران", "172.29.2.100");
  ("Server IR", "194.104.158.48");
  ("Server IR", "194.104.158.78");
  ("Level3", "209.244.0.3");
  ("Level3", "209.244.0.4");
  ("OpenDNS", "208.67.222.222");
  ("OpenDNS", "208.67.220.220");
  ("Gaming DNS 1", "78.157.42.100");
  ("Gaming DNS 1", "185.43.135.1");
  ("Gaming DNS 2", "156.154.70.1");
  ("Gaming DNS 2", "156.154.71.1");
  ("Gaming DNS 3", "149.112.112.112");
  ("Gaming DNS 3", "149.112.112.10");
  ("Gaming DNS 4", "185.108.22.133");
  ("Gaming DNS 4", "185.108.22.134");
  ("Gaming DNS 5", "85.214.41.206");
  ("Gaming DNS 5", "89.15.250.41");
  ("Gaming DNS 6", "9.9.9.9");
  ("Gaming DNS 6", "109.69.8.51");
  ("Gaming DNS 7", "8.26.56.26");
  ("Gaming DNS 7", "8.26.247.20");
  ("Gaming DNS 8", "185.121.177.177");
  ("Gaming DNS 8", "169.239.202.202");
  ("Gaming DNS 9", "185.231.182.126");
  ("Gaming DNS 9", "185.43.135.1");
  ("Gaming DNS 10", "185.43.135.1");
  ("Gaming DNS 10", "46.16.216.25");
  ("Gaming DNS 11", "185.213.182.126");
  ("Gaming DNS 11", "185.43.135.1");
  ("Gaming DNS 12", "199.85.127.10");
  ("Gaming DNS 12", "185.231.182.126");
  ("Gaming DNS 13", "91.239.100.100");
  ("Gaming DNS 13", "37.152.182.112");
  ("Gaming DNS 14", "8.26.56.26");
  ("Gaming DNS 14", "8.20.247.20");
  ("Gaming DNS 15", "78.157.42.100");
  ("Gaming DNS 15", "1.1.1.1");
  ("Gaming DNS 16", "87.135.66.81");
  ("Gaming DNS 16", "76.76.10.4");
  ("مخابرات/شاتل/آسیاتک/رایتل", "91.239.100.100");
  ("مخابرات/شاتل/آسیاتک/رایتل", "89.233.43.71");
  ("پارس آنلاین", "46.224.1.221");
  ("پارس آنلاین", "46.224.1.220");
  ("همراه اول", "208.67.220.200");
  ("همراه اول", "208.67.222.222");
  ("ایرانسل", "109.69.8.51");
  ("ایرانسل", "74.82.42.42");
  ("مخابرات", "8.8.8.8");
  ("مخابرات", "8.8.4.4");
  ("مخابرات", "4.4.4.4");
  ("مخابرات", "4.2.2.4");
  ("مخابرات", "195.46.39.39");
  ("مخابرات", "195.46.39.40");
  ("مبین نت", "10.44.8.8");
  ("مبین نت", "8.8.8.8");
  ("سایر اپراتورها", "199.85.127.10");
  ("سایر اپراتورها", "199.85.126.10");
  ("Cloudflare", "1.1.1.1");
  ("Cloudflare", "1.0.0.1");
  ("Google", "8.8.8.8");
  ("Google", "8.8.4.4");
  ("Quad9", "9.9.9.9");
  ("Quad9", "149.112.112.112")
].

Definition _run (cmd : list string) (timeout : option Q)
  : M CompletedProcess :=
  subprocess_run (Argv cmd) timeout.

Definition has_cmd (name : string) : M bool :=
  catch
    (result <- subprocess_run (Argv ["which"; name]) None ;;
     ret (returncode result =? 0))
    (fun _ => ret false).

Definition systemd_resolved_active : M bool :=
  catch
    (p <- _run ["systemctl"; "is-active"; "systemd-resolved"] (Some 2.0%Q) ;;
     ret (bool_decide (Py.strip (stdout p) = "active")))
    (fun _ => ret false).

Definition get_default_iface : M string :=
  catch
    (p <- _run ["bash"; "-c";
                "ip route show default | awk '{print $5}' | head -n1"] None ;;
     let s := Py.strip (stdout p) in
     ret (if bool_decide (s = "") then "eth0" else s))
    (fun _ => ret "eth0").

(** One turn of the loop of [normalize_dns_list] on the pair
    [(seen, out)]. *)
Definition normalize_step (st : gset string * list (string * string))
    (entry : string * string) : gset string * list (string * string) :=
  let '(seen, out) := st in
  let '(name, ip) := entry in
  let ip := Py.strip ip in
  if bool_decide (ip = "0.0.0.0") || bool_decide (ip = "") then st
  else if bool_decide (ip ∈ seen) then st
  else ({[ ip ]} ∪ seen, out ++ [(Py.strip name, ip)]).

Definition normalize_dns_list (raw : list (string * string))
  : list (string * string) :=
  snd (fold_left normalize_step raw (∅, [])).

(** One attempt of [nslookup_latency_ms], on the pair [(total, ok)]. *)
Definition nslookup_attempt (domain dns_ip : string) (st : Q * Z)
  : M (Q * Z) :=
  let '(total, ok) := st in
  t0 <- time ;;
  catch
    (p <- _run ["nslookup"; domain; dns_ip] (Some TIMEOUT) ;;
     if returncode p =? 0 then
       t1 <- time ;;
       ret ((total + (t1 - t0) * 1000)%Q, ok + 1)
     else ret (total, ok))
    (fun _ => ret (total, ok)).

Fixpoint nslookup_attempts (n : nat) (domain dns_ip : string) (st : Q * Z)
  : M (Q * Z) :=
  match n with
  | O => ret st
  | S n' =>
      st' <- nslookup_attempt domain dns_ip st ;;
      nslookup_attempts n' domain dns_ip st'
  end.

Definition nslookup_latency_ms (domain dns_ip : string) : M (option Q) :=
  st <- nslookup_attempts REPEAT domain dns_ip (0%Q, 0) ;;
  let '(total, ok) := st in
  if ok =? 0 then ret None
  else ret (Some (Py.round1 (total / inject_Z ok))).

Definition score_dns (dns_ip : string) : M (option (Q * Q * Q)) :=
  lat1 <- nslookup_latency_ms TEST_DOMAIN_1 dns_ip ;;
  match lat1 with
  | None => ret None
  | Some lat1 =>
      lat2 <- nslookup_latency_ms TEST_DOMAIN_2 dns_ip ;;
      match lat2 with
      | None => ret None
      | Some lat2 =>
          let score :=
            Py.round1
              (Py.fdiv (Py.fadd (Py.binary64 lat1) (Py.binary64 lat2))
                 2.0) in
          ret (Some (score, lat1, lat2))
      end
  end.

(** The [try] block of [apply_dns]. *)
Definition apply_dns_try (dns_ip : string) : M (bool * string) :=
  resolvectl <- has_cmd "resolvectl" ;;
  resolved <- (if resolvectl then systemd_resolved_active
               else ret false) ;;
  if resolved then
    iface <- get_default_iface ;;
    p1 <- _run ["resolvectl"; "dns"; iface; dns_ip] None ;;
    if negb (returncode p1 =? 0) then
      ret (false, "resolvectl dns failed: " +:+ stderr p1)
    else
      _run ["resolvectl"; "domain"; iface; "~."] None ;;;
      _run ["resolvectl"; "flush-caches"] None ;;;
      ret (true, "Applied via systemd-resolved on " +:+ iface
                 +:+ ": DNS=" +:+ dns_ip)
  else
    nmcli <- has_cmd "nmcli" ;;
    applied <-
      (if nmcli then
         p <- _run ["bash"; "-c";
                    "nmcli -t -f NAME,DEVICE c show --active | head -n1"]
                None ;;
         let line := Py.strip (stdout p) in
         if negb (bool_decide (line = "")) then
           let conn := hd "" (Py.split ":" line) in
           p2 <- _run ["nmcli"; "c"; "modify"; conn; "ipv4.dns"; dns_ip;
                       "ipv4.ignore-auto-dns"; "yes"] None ;;
           if returncode p2 =? 0 then
             _run ["nmcli"; "c"; "down"; conn] None ;;;
             _run ["nmcli"; "c"; "up"; conn] None ;;;
             ret (Some ("Applied via NetworkManager: " +:+ conn
                        +:+ " DNS=" +:+ dns_ip))
           else ret None
         else ret None
       else ret None) ;;
    match applied with
    | Some msg => ret (true, msg)
    | None =>
        (* Fallback to /etc/resolv.conf *)
        write_file "/etc/resolv.conf"
          ("nameserver " +:+ dns_ip +:+ Py.nl) ;;;
        ret (true, "Applied by writing /etc/resolv.conf: DNS="
                   +:+ dns_ip)
    end.

Definition apply_dns (dns_ip : string) : M (bool * string) :=
  catch (apply_dns_try dns_ip)
    (fun e => ret (false, "Failed to apply DNS: " +:+ str_of_exn e)).

(** The tuples [(score, name, ip, lat1, lat2)] of the scan; the
    dictionary [best_info] has the same five entries. *)
Record ScoreEntry : Type := {
  score : Q;
  name : string;
  ip : string;
  latency1 : Q;
  latency2 : Q
}.

(** The progress callback [callback(name, ip, status, score)]. *)
Definition Callback : Type := string -> string -> string -> option Q -> M unit.

(** [save_dns_config]: the selection document is rewritten. *)
Definition save_dns_config (dns_ip dns_name : string) : M unit :=
  persist (SaveDnsConfig dns_ip dns_name).

(** The loop of [scan_and_apply_best_dns] over the candidates. *)
Fixpoint scan (callback : option Callback) (dns_list : list (string * string))
    (results : list ScoreEntry) : M (list ScoreEntry) :=
  match dns_list with
  | [] => ret results
  | (name, ip) :: rest =>
      s <- score_dns ip ;;
      match s with
      | None =>
          match callback with
          | Some cb => cb name ip "fail" None
          | None => ret tt
          end ;;;
          scan callback rest results
      | Some (score, lat1, lat2) =>
          match callback with
          | Some cb => cb name ip "ok" (Some score)
          | None => ret tt
          end ;;;
          scan callback rest
            (results ++ [{| score := score; name := name; ip := ip;
                            latency1 := lat1; latency2 := lat2 |}])
      end
  end.

Definition scan_and_apply_best_dns (callback : option Callback)
  : M (bool * string * option ScoreEntry) :=
  nslookup <- has_cmd "nslookup" ;;
  if negb nslookup then
    ret (false, "nslookup not found. Install: sudo apt install -y dnsutils",
         None)
  else
    let dns_list := normalize_dns_list RAW_DNS_LIST in
    results <- scan callback dns_list [] ;;
    match results with
    | [] =>
        ret (false, "No DNS server could resolve both test domains.", None)
    | _ :: _ =>
        match Py.sorted score results with
        | [] => raise (IndexError "list index out of range")
        | best :: _ =>
            let best_info := Some best in
            r <- apply_dns (ip best) ;;
            let '(success, msg) := r in
            if success then
              save_dns_config (ip best) (name best) ;;;
              ret (true,
                   "Best DNS: " +:+ name best +:+ " (" +:+ ip best
                   +:+ ") - Score: " +:+ Py.str_of_float1 (score best)
                   +:+ "ms" +:+ Py.nl +:+ msg,
                   best_info)
            else
              ret (false, "Found best DNS but failed to apply: " +:+ msg,
                   best_info)
        end
    end.

End Dns.

(** ** [vortexl2/dns_manager.py]: the cron entry of the periodic check

    These helpers only touch one file.  They are embedded over the files
    themselves: their contents by path, and the error, if any, with which
    the system refuses to change them.  File modes are not modelled, so
    [os.chmod] leaves no mark. *)

Module DnsCron.

Record Disk : Type := {
  files : gmap string string;
  write_error : option string
}.

Definition with_files (fs : gmap string string) (d : Disk) : Disk :=
  {| files := fs; write_error := write_error d |}.

Definition is_Some_bool {A} (x : option A) : bool :=
  match x with Some _ => true | None => false end.

Definition cron_file : string := "/etc/cron.d/vortexl2-dns".
Definition cron_marker : string := "# VortexL2 DNS Auto-Check".

(** The longest run of decimal digits, of any script, at the front of
    [s]: what [\d+] matches there.  The characters are decoded from UTF-8
    as they are taken. *)
Fixpoint take_digits (s : string) : string :=
  match s with
  | EmptyString => EmptyString
  | String c1 s1 =>
      let n1 := Py.code c1 in
      if (n1 <? 128)%N then
        if Py.is_digit c1 then String c1 (take_digits s1) else EmptyString
      else
        match s1 with
        | EmptyString => EmptyString
        | String c2 s2 =>
            let n2 := ((n1 - 192) * 64 + (Py.code c2 - 128))%N in
            if (n1 <? 224)%N then
              if is_Some_bool (Py.decimal_value n2)
              then String c1 (String c2 (take_digits s2))
              else EmptyString
            else
              match s2 with
              | EmptyString => EmptyString
              | String c3 s3 =>
                  let n3 := (((n1 - 224) * 64 + (Py.code c2 - 128)) * 64
                             + (Py.code c3 - 128))%N in
                  if (n1 <? 240)%N then
                    if is_Some_bool (Py.decimal_value n3)
                    then String c1 (String c2 (String c3 (take_digits s3)))
                    else EmptyString
                  else
                    match s3 with
                    | EmptyString => EmptyString
                    | String c4 s4 =>
                        let n4 := ((((n1 - 240) * 64 + (Py.code c2 - 128))
                                    * 64 + (Py.code c3 - 128)) * 64
                                   + (Py.code c4 - 128))%N in
                        if is_Some_bool (Py.decimal_value n4)
                        then String c1
                               (String c2
                                  (String c3 (String c4 (take_digits s4))))
                        else EmptyString
                    end
              end
        end
  end.

(** [re.search(r'\*/(\d+)', s)]: the group of the leftmost match, if any.
    The star and the slash are ASCII, so they are found byte by byte. *)
Fixpoint search_interval (s : string) : option string :=
  match s with
  | EmptyString => None
  | String c s' =>
      if Ascii.eqb c "*"%char then
        match s' with
        | String d rest =>
            if Ascii.eqb d "/"%char then
              match take_digits rest with
              | EmptyString => search_interval s'
              | digits => Some digits
              end
            else search_interval s'
        | EmptyString => None
        end
      else search_interval s'
  end.

(** The three lines [update_dns_cron] writes. *)
Definition cron_text (hours : Z) : string :=
  let cron_cmd := "0 */" +:+ Py.str_of_int hours
                  +:+ " * * * root /usr/local/bin/vortexl2-dns-check "
                  +:+ cron_marker in
  "SHELL=/bin/bash" +:+ Py.nl
  +:+ "PATH=/usr/local/sbin:/usr/local/bin:/sbin:/bin:/usr/sbin:/usr/bin"
  +:+ Py.nl +:+ cron_cmd +:+ Py.nl.

Definition update_dns_cron (hours : Z) (d : Disk) : (bool * string) * Disk :=
  match write_error d with
  | None =>
      ((true, "DNS auto-check scheduled every " +:+ Py.str_of_int hours
              +:+ " hours"),
       with_files (<[cron_file := cron_text hours]> (files d)) d)
  | Some e => ((false, "Failed to create cron job: " +:+ e), d)
  end.

Definition remove_dns_cron (d : Disk) : (bool * string) * Disk :=
  match files d !! cron_file with
  | Some _ =>
      match write_error d with
      | None =>
          ((true, "DNS auto-check disabled"),
           with_files (delete cron_file (files d)) d)
      | Some e => ((false, "Failed to remove cron job: " +:+ e), d)
      end
  | None => ((true, "DNS auto-check disabled"), d)
  end.

Definition get_dns_cron_status (d : Disk) : bool * string :=
  match files d !! cron_file with
  | Some content =>
      match search_interval content with
      | Some hours => (true, "Every " +:+ hours +:+ " hours")
      | None => (true, "Enabled")
      end
  | None => (false, "Disabled")
  end.

End DnsCron.

(** ** [vortexl2/easytier_manager.py]: the forwarded-port list *)

Module EasyTierManager.

Import EasyTierConfig.

(** [list.remove(x)]: the first occurrence goes. *)
Fixpoint list_remove (x : Z) (l : list Z) : list Z :=
  match l with
  | [] => []
  | y :: ys => if bool_decide (x = y) then ys else y :: list_remove x ys
  end.

(** [_save]: the document is rewritten unless [_auto_save] is off.
    Nothing guards the write: its [OSError] goes to the caller. *)
Definition _save (c : t) : M unit :=
  if negb (auto_save c) then ret tt
  else persist (SaveTunnel (name c) (forwarded_ports c)).

(** The setter of the property [forwarded_ports].  The object is the one
    the manager holds in [self.config]: it is changed in place, and only
    then saved, so a failing save leaves the change in memory. *)
Definition forwarded_ports_setter (c : t) (value : list Z) : M unit :=
  let c' := set_forwarded_ports c value in
  put_config c' ;;;
  _save c'.

(** [add_port] and [remove_port], on the object [c] found in
    [self.config].  One object is followed: that objects built from
    [DEFAULTS] share one list is outside the embedding. *)
Definition add_port (c : t) (port : Z) : M unit :=
  let ports := forwarded_ports c in
  if negb (bool_decide (port ∈ ports)) then
    forwarded_ports_setter c (ports ++ [port])
  else ret tt.

Definition remove_port (c : t) (port : Z) : M unit :=
  let ports := forwarded_ports c in
  if bool_decide (port ∈ ports) then
    forwarded_ports_setter c (list_remove port ports)
  else ret tt.

End EasyTierManager.

(** ** [vortexl2/socat_manager.py] *)

Module Socat.

Import EasyTierConfig.

Definition run_command (cmd : string) : M (bool * string * string) :=
  catch
    (result <- subprocess_run (ShellLine cmd) (Some 10%Q) ;;
     ret (returncode result =? 0, stdout result, stderr result))
    (fun e =>
       match e with
       | TimeoutExpired _ => ret (false, "", "Command timed out")
       | _ => ret (false, "", str_of_exn e)
       end).

Definition check_socat_installed : M bool :=
  r <- run_command "which socat" ;;
  ret (fst (fst r)).

Definition _is_port_listening (port : Z) : M bool :=
  let cmd := "netstat -tlnp 2>/dev/null | grep -E ':"
             +:+ Py.str_of_int port +:+ "\b'" in
  r <- run_command cmd ;;
  ret (fst (fst r)).

Definition _get_port_process (port : Z) : M (option string) :=
  let cmd := "lsof -i :" +:+ Py.str_of_int port
             +:+ " -t 2>/dev/null | head -1" in
  r <- run_command cmd ;;
  let '(success, stdout, _) := r in
  if success && negb (bool_decide (Py.strip stdout = "")) then
    let pid := Py.strip stdout in
    (* check if it is socat *)
    let ps_cmd := "ps -p " +:+ pid +:+ " -o comm=" in
    r2 <- run_command ps_cmd ;;
    let '(_, ps_out, _) := r2 in
    let proc_name := Py.strip ps_out in
    ret (Some (proc_name +:+ " (PID: " +:+ pid +:+ ")"))
  else ret None.

(** [proc or 'unknown process'] *)
Definition proc_or_unknown (proc : option string) : string :=
  match proc with
  | Some p => if bool_decide (p = "") then "unknown process" else p
  | None => "unknown process"
  end.

Definition start_forward (local_port : Z) (remote_ip : string)
    (remote_port : Z) : M (bool * string) :=
  installed <- check_socat_installed ;;
  if negb installed then
    ret (false,
         "socat is not installed. Install with: apt-get install socat")
  else
    (* Check if port is already in use *)
    listening <- _is_port_listening local_port ;;
    if listening then
      proc <- _get_port_process local_port ;;
      ret (false, "Port " +:+ Py.str_of_int local_port
                  +:+ " is already in use by: " +:+ proc_or_unknown proc)
    else
      let cmd := "nohup socat TCP-LISTEN:" +:+ Py.str_of_int local_port
                 +:+ ",fork,reuseaddr TCP:" +:+ remote_ip +:+ ":"
                 +:+ Py.str_of_int remote_port +:+ " >/dev/null 2>&1 &" in
      r <- run_command cmd ;;
      let '(success, _, stderr) := r in
      if negb success then ret (false, "Failed to start socat: " +:+ stderr)
      else
        (* Verify it started *)
        sleep 0.5%Q ;;;
        started <- _is_port_listening local_port ;;
        if started then
          ret (true, "Socat forward started: " +:+ Py.str_of_int local_port
                     +:+ " → " +:+ remote_ip +:+ ":"
                     +:+ Py.str_of_int remote_port)
        else
          ret (false,
               "Socat process did not start successfully (check logs)").

Definition stop_forward (local_port : Z) : M (bool * string) :=
  listening <- _is_port_listening local_port ;;
  if negb listening then
    ret (true, "Port " +:+ Py.str_of_int local_port
               +:+ " is not being forwarded")
  else
    let cmd := "pkill -f 'socat.*TCP-LISTEN:" +:+ Py.str_of_int local_port
               +:+ "[^0-9]'" in
    run_command cmd ;;;
    (* Verify it stopped *)
    sleep 0.5%Q ;;;
    still <- _is_port_listening local_port ;;
    if negb still then
      ret (true, "Stopped socat forward on port "
                 +:+ Py.str_of_int local_port)
    else
      ret (false, "Failed to stop socat on port "
                  +:+ Py.str_of_int local_port).

(** [not remote_ip]: unset or empty. *)
Definition configured_ip (remote_ip : option string) : option string :=
  match remote_ip with
  | Some s => if bool_decide (s = "") then None else Some s
  | None => None
  end.

Definition create_forward (port : Z) : M (bool * string) :=
  self_config <- get_config ;;
  match self_config with
  | None => ret (false, "No tunnel configuration provided")
  | Some cfg =>
      if bool_decide (port ∈ forwarded_ports cfg) then
        ret (false, "Port " +:+ Py.str_of_int port
                    +:+ " already in forwarded list")
      else
        match configured_ip (remote_forward_ip cfg) with
        | None =>
            ret (false, "Remote forward IP not configured for this tunnel")
        | Some remote_ip =>
            (* Try to start socat first *)
            r <- start_forward port remote_ip port ;;
            let '(success, msg) := r in
            if negb success then ret (false, msg)
            else
              (* If successful, add to config *)
              EasyTierManager.add_port cfg port ;;;
              ret (true, "Port forward for " +:+ Py.str_of_int port
                         +:+ " started (socat)")
        end
  end.

Definition remove_forward (port : Z) : M (bool * string) :=
  self_config <- get_config ;;
  match self_config with
  | None => ret (false, "No tunnel configuration provided")
  | Some cfg =>
      if negb (bool_decide (port ∈ forwarded_ports cfg)) then
        ret (false, "Port " +:+ Py.str_of_int port
                    +:+ " is not in forwarded list")
      else
        (* Stop socat *)
        r <- stop_forward port ;;
        let '(success, msg) := r in
        if negb success then ret (false, msg)
        else
          (* Remove from config *)
          EasyTierManager.remove_port cfg port ;;;
          ret (true, "Port forward " +:+ Py.str_of_int port +:+ " removed")
  end.

Definition value_error {A} : result A :=
  Raise (ValueError "invalid port").

(** The [try] block shared by both bulk helpers: the parts of
    [ports_str.split(',')] are read in turn into [ports]. *)
Fixpoint parse_parts (parts : list string) (ports : list Z)
  : result (list Z) :=
  match parts with
  | [] => Ok ports
  | part :: rest =>
      let part := Py.strip part in
      if Py.contains "-" part then
        match Py.split "-" part with
        | [a; b] =>
            match Py.int a, Py.int b with
            | Some start, Some end_ =>
                parse_parts rest (ports ++ Py.range start (end_ + 1))
            | _, _ => value_error
            end
        | _ => value_error
        end
      else
        match Py.int part with
        | Some n => parse_parts rest (ports ++ [n])
        | None => value_error
        end
  end.

Definition parse_ports (ports_str : string) : result (list Z) :=
  parse_parts (Py.split "," ports_str) [].

Fixpoint create_each (ports : list Z) (results : list string)
  : M (list string) :=
  match ports with
  | [] => ret results
  | port :: rest =>
      r <- create_forward port ;;
      create_each rest (results ++ [snd r])
  end.

Definition add_multiple_forwards (ports_str : string) : M (bool * string) :=
  match parse_ports ports_str with
  | Raise (ValueError _) => ret (false, "Invalid port format")
  | Raise e => raise e
  | Ok ports =>
      results <- create_each ports [] ;;
      ret (true, Py.join Py.nl results)
  end.

Fixpoint remove_each (ports : list Z) (results : list string)
  : M (list string) :=
  match ports with
  | [] => ret results
  | port :: rest =>
      self_config <- get_config ;;
      match self_config with
      | None =>
          raise (AttributeError
                   "'NoneType' object has no attribute 'forwarded_ports'")
      | Some cfg =>
          if bool_decide (port ∈ forwarded_ports cfg) then
            r <- remove_forward port ;;
            remove_each rest (results ++ [snd r])
          else remove_each rest results
      end
  end.

Definition remove_multiple_forwards (ports_str : string)
  : M (bool * string) :=
  match parse_ports ports_str with
  | Raise (ValueError _) => ret (false, "Invalid port format")
  | Raise e => raise e
  | Ok ports =>
      results <- remove_each ports [] ;;
      ret (true, Py.join Py.nl results)
  end.

Definition stop_all_forwards : M (bool * string) :=
  (* Kill all socat processes *)
  run_command "pkill -f 'socat.*TCP-LISTEN'" ;;;
  sleep 0.5%Q ;;;
  r <- run_command "pgrep -f 'socat.*TCP-LISTEN'" ;;
  let '(success, stdout, _) := r in
  if success && negb (bool_decide (Py.strip stdout = "")) then
    ret (false, "Some socat processes failed to stop")
  else ret (true, "All socat forwards stopped").

(** [stop_all_socat]: a manager without configuration stops them all. *)
Definition stop_all_socat : M (bool * string) := stop_all_forwards.






Definition validate_and_reload : M (bool * string) :=
  ret (true, "Socat config valid (managed per process)").

(** The inner loop of [start_all_forwards], on the pair [(count, errors)]. *)
Fixpoint start_ports (remote_ip : string) (ports : list Z)
    (st : Z * list string) : M (Z * list string) :=
  match ports with
  | [] => ret st
  | port :: rest =>
      let '(count, errors) := st in
      r <- start_forward port remote_ip port ;;
      let '(success, msg) := r in
      if success then start_ports remote_ip rest (count + 1, errors)
      else start_ports remote_ip rest
             (count, errors ++ [Py.str_of_int port +:+ ": " +:+ msg])
  end.

Fixpoint start_tunnels (tunnels : list EasyTierConfig.t)
    (st : Z * list string) : M (Z * list string) :=
  match tunnels with
  | [] => ret st
  | tunnel :: rest =>
      match configured_ip (remote_forward_ip tunnel) with
      | None => start_tunnels rest st
      | Some remote_ip =>
          st' <- start_ports remote_ip (forwarded_ports tunnel) st ;;
          start_tunnels rest st'
      end
  end.

(** [start_all_forwards], the tunnels being an argument as in
    [list_forwards]. *)
Definition start_all_forwards (tunnels : list EasyTierConfig.t)
  : M (bool * string) :=
  st <- start_tunnels tunnels (0, []) ;;
  let '(count, errors) := st in
  match errors with
  | _ :: _ =>
      ret (false, "Started " +:+ Py.str_of_int count
                  +:+ " forwards, but errors occurred:" +:+ Py.nl
                  +:+ Py.join Py.nl errors)
  | [] => ret (true, "Started " +:+ Py.str_of_int count +:+ " socat forwards")
  end.

Definition restart_all_forwards (tunnels : list EasyTierConfig.t)
  : M (bool * string) :=
  stop_all_forwards ;;;
  start_all_forwards tunnels.

End Socat.

(** ** [vortexl2/main.py]: switching the forward mode *)

Module Main.

(** Modelled from the spec: [get_forward_mode] of [vortexl2/forward.py],
    which is not among the sources.  The forward mode is a persisted,
    process-wide value; reading it returns what was persisted last. *)
Definition get_forward_mode : M string :=
  fun w => (Ok (forward_mode w), w).

(** Modelled from the spec: [set_forward_mode] of [vortexl2/forward.py],
    which is not among the sources.  It persists the new mode. *)
Definition set_forward_mode (mode : string) : M unit :=
  fun w => (Ok tt, log (SetForwardMode mode) (with_forward_mode mode w)).

(** [subprocess.run(line, shell=True, capture_output=True)] *)
Definition shell (line : string) : M unit :=
  subprocess_run (ShellLine line) None ;;;
  ret tt.

Definition restart_forward_daemon : M unit :=
  mode <- get_forward_mode ;;
  (if bool_decide (mode = "haproxy") then shell "systemctl start haproxy"
   else ret tt) ;;;
  shell "systemctl restart vortexl2-forward-daemon".

(** The mode picked in the menu shown by [ui.show_forward_mode_menu]. *)
Definition new_mode_of (mode_choice : string) : option string :=
  if bool_decide (mode_choice = "1") then Some "none"
  else if bool_decide (mode_choice = "2") then Some "haproxy"
  else if bool_decide (mode_choice = "3") then Some "socat"
  else None.

(** [handle_forwards_menu], one turn of its loop taking the branch
    [choice == "6"]; [mode_choice] is what the operator picked.  Calls
    that only display text are left out. *)
Definition handle_forwards_menu_mode (mode_choice : string) : M unit :=
  current_mode <- get_forward_mode ;;
  match new_mode_of mode_choice with
  | Some new_mode =>
      if negb (bool_decide (new_mode = current_mode)) then
        (if bool_decide (current_mode = "haproxy") then
           shell "systemctl stop haproxy"
         else if bool_decide (current_mode = "socat") then
           Socat.stop_all_socat ;;; ret tt
         else ret tt) ;;;
        set_forward_mode new_mode ;;;
        if negb (bool_decide (new_mode = "none")) then
          start <- confirm "Start port forwarding now?" ;;
          if start then restart_forward_daemon else ret tt
        else shell "systemctl stop haproxy"
      else ret tt
  | None => ret tt
  end.

(** [handle_easytier_forwards_menu], the same branch. *)
Definition handle_easytier_forwards_menu_mode (mode_choice : string)
  : M unit :=
  current_mode <- get_forward_mode ;;
  match new_mode_of mode_choice with
  | Some new_mode =>
      if negb (bool_decide (new_mode = current_mode)) then
        set_forward_mode new_mode ;;;
        if negb (bool_decide (new_mode = "none")) then
          restart_forward_daemon
        else ret tt
      else ret tt
  | None => ret tt
  end.

End Main.

(** ** [vortexl2/dns_ui.py]: the interval prompt *)

Module DnsUi.

(** [intervals = {"1": 1, "2": 2, "3": 4, "4": 6, "5": 12, "6": 24}] *)
Definition intervals : list (string * Z) :=
  [("1", 1); ("2", 2); ("3", 4); ("4", 6); ("5", 12); ("6", 24)].

Fixpoint lookup_choice (choice : string) (table : list (string * Z))
  : option Z :=
  match table with
  | [] => None
  | (k, v) :: rest =>
      if bool_decide (choice = k) then Some v else lookup_choice choice rest
  end.

(** [prompt_check_interval]; [choice] and [custom] are what the two
    prompts return, the second being asked only for choice 7.  Calls that
    only display text are left out. *)
Definition prompt_check_interval (choice custom : string) : option Z :=
  if bool_decide (choice = "0") then None
  else if bool_decide (choice = "7") then
    match Py.int custom with
    | Some hours =>
        if (1 <=? hours) && (hours <=? 24) then Some hours else None
    | None => None
    end
  else lookup_choice choice intervals.

End DnsUi.

(** * Vocabulary of the statements *)

(** ** Candidate normalisation *)

(** What the loop of [normalize_dns_list] maintains once it has read [pre]:
    [seen] holds the addresses of [out], those are distinct and valid, each
    entry of [out] comes from the first entry of [pre] with its address,
    and every valid address read so far is in [seen]. *)
Definition normalize_inv (pre : list (string * string))
    (st : gset string * list (string * string)) : Prop :=
  let '(seen, out) := st in
  (∀ a, a ∈ seen ↔ a ∈ out.*2) ∧
  NoDup out.*2 ∧
  (∀ e, e ∈ pre →
     Py.strip e.2 = "0.0.0.0" ∨ Py.strip e.2 = "" ∨ Py.strip e.2 ∈ seen) ∧
  (∀ n a, (n, a) ∈ out →
     a ≠ "0.0.0.0" ∧ a ≠ "" ∧
     ∃ p rn ri q,
       pre = p ++ (rn, ri) :: q ∧ Py.strip ri = a ∧ Py.strip rn = n ∧
       ∀ e, e ∈ p → Py.strip e.2 ≠ a).

(** A raw candidate as [normalize_dns_list] stores it. *)
Definition stripped (entry : string * string) : string * string :=
  (Py.strip entry.1, Py.strip entry.2).

(** ** The latency probe *)

(** The sub-process one resolution attempt starts. *)
Definition nslookup_cmd (domain dns_ip : string) : Event :=
  Spawn (Argv ["nslookup"; domain; dns_ip]) (Some Dns.TIMEOUT).

(** One attempt seen from outside: the elapsed milliseconds when
    [nslookup] exits with status 0, nothing when it exits otherwise, times
    out or cannot be started. *)
Definition attempt_sample (domain dns_ip : string) (w : World) : option Q :=
  let t0 := clock (env w) (trace w) in
  let past := trace w ++ [ReadClock] in
  match spawn (env w) past (Argv ["nslookup"; domain; dns_ip])
          (Some Dns.TIMEOUT) with
  | Exited rc _ _ =>
      if rc =? 0 then
        Some ((clock (env w) (past ++ [nslookup_cmd domain dns_ip]) - t0)
              * 1000)%Q
      else None
  | _ => None
  end.

(** The world one attempt leaves. *)
Definition attempt_world (domain dns_ip : string) (w : World) : World :=
  let w' := log (nslookup_cmd domain dns_ip) (log ReadClock w) in
  match attempt_sample domain dns_ip w with
  | Some _ => log ReadClock w'
  | None => w'
  end.

(** The samples of [n] attempts in a row, and the world they leave. *)
Fixpoint attempt_samples (n : nat) (domain dns_ip : string) (w : World)
  : list (option Q) * World :=
  match n with
  | O => ([], w)
  | S n' =>
      let '(samples, w') :=
        attempt_samples n' domain dns_ip (attempt_world domain dns_ip w) in
      (attempt_sample domain dns_ip w :: samples, w')
  end.

(** The elapsed times of the attempts that succeeded. *)
Definition successes (samples : list (option Q)) : list Q := omap id samples.

(** Their mean, rounded to one decimal; nothing when there is none. *)
Definition mean_rounded (xs : list Q) : option Q :=
  match xs with
  | [] => None
  | _ :: _ =>
      Some (Py.round1 (fold_left Qplus xs 0%Q / inject_Z (Z.of_nat (length xs))))
  end.

Definition is_spawn (e : Event) : bool :=
  match e with Spawn _ _ => true | _ => false end.

(** ** Committing an address *)








(** The commands of the mechanisms, and the query that precedes each. *)
Definition iface_query : Command :=
  Argv ["bash"; "-c"; "ip route show default | awk '{print $5}' | head -n1"].

Definition resolvectl_dns (iface dns_ip : string) : Command :=
  Argv ["resolvectl"; "dns"; iface; dns_ip].

Definition nmcli_query : Command :=
  Argv ["bash"; "-c"; "nmcli -t -f NAME,DEVICE c show --active | head -n1"].

Definition nmcli_modify (conn dns_ip : string) : Command :=
  Argv ["nmcli"; "c"; "modify"; conn; "ipv4.dns"; dns_ip;
        "ipv4.ignore-auto-dns"; "yes"].

(** What [apply_dns] answers when it comes to overwrite
    [/etc/resolv.conf] in world [w]: success if the file can be written,
    failure with the error otherwise. *)
Definition overwrite_outcome (dns_ip : string) (w : World)
  : result (bool * string) :=
  match write (env w) (trace w) "/etc/resolv.conf"
          ("nameserver " +:+ dns_ip +:+ Py.nl) with
  | None => Ok (true, "Applied by writing /etc/resolv.conf: DNS=" +:+ dns_ip)
  | Some msg => Ok (false, "Failed to apply DNS: " +:+ msg)
  end.



(** ** The socat driver *)

(** What [run_command] returns for a shell line in a world. *)
Definition shell_result (cmd : string) (w : World) : bool * string * string :=
  match spawn (env w) (trace w) (ShellLine cmd) (Some 10%Q) with
  | Exited rc out err => (rc =? 0, out, err)
  | TimedOut => (false, "", "Command timed out")
  | SpawnError msg => (false, "", msg)
  end.

Definition ran (cmd : string) (w : World) : World :=
  log (Spawn (ShellLine cmd) (Some 10%Q)) w.

Definition netstat_cmd (port : Z) : string :=
  "netstat -tlnp 2>/dev/null | grep -E ':" +:+ Py.str_of_int port +:+ "\b'".

(** The live check finds the port bound. *)
Definition listening (port : Z) (w : World) : bool :=
  (shell_result (netstat_cmd port) w).1.1.

(** [m] leaves the environment as it is: the host answers later requests
    by the same rules. *)
Definition keeps_env {A} (m : M A) : Prop := ∀ w, env (m w).2 = env w.

(** The persistence layer never fails on this host. *)
Definition saves_succeed (w : World) : Prop :=
  ∀ past e, save (env w) past e = None.

(** The error, if any, with which the document of tunnel [c] cannot be
    saved in world [w]; none when [_auto_save] is off. *)
Definition save_error (c : EasyTierConfig.t) (w : World) : option string :=
  if EasyTierConfig.auto_save c then
    save (env w) (trace w)
      (SaveTunnel (EasyTierConfig.name c) (EasyTierConfig.forwarded_ports c))
  else None.

(** The world once the tunnel [c] held in [self.config] took the list
    [value] and its save was attempted. *)
Definition stored (c : EasyTierConfig.t) (value : list Z) (w : World)
  : World :=
  let c' := EasyTierConfig.set_forwarded_ports c value in
  let w' := with_config (Some c') w in
  if EasyTierConfig.auto_save c' then
    log (SaveTunnel (EasyTierConfig.name c')
           (EasyTierConfig.forwarded_ports c')) w'
  else w'.

(** ** Switching the forward mode *)

Definition stop_haproxy : Event :=
  Spawn (ShellLine "systemctl stop haproxy") None.

(** What [stop_all_socat] does: kill, wait, look again. *)
Definition stop_socat : list Event :=
  [Spawn (ShellLine "pkill -f 'socat.*TCP-LISTEN'") (Some 10%Q);
   Sleep 0.5%Q;
   Spawn (ShellLine "pgrep -f 'socat.*TCP-LISTEN'") (Some 10%Q)].

(** The stop sequence of the driver that realises a mode. *)
Definition stop_of (mode : string) : list Event :=
  if bool_decide (mode = "haproxy") then [stop_haproxy]
  else if bool_decide (mode = "socat") then stop_socat
  else [].

(** A command that stops a driver. *)
Definition is_stop (e : Event) : bool :=
  match e with
  | Spawn (ShellLine line) _ =>
      bool_decide (line = "systemctl stop haproxy")
      || bool_decide (line = "pkill -f 'socat.*TCP-LISTEN'")
  | _ => false
  end.

(** ** Sample hosts *)

(** The text of a command, as a key of a script. *)
Definition command_line (c : Command) : string :=
  match c with
  | Argv argv => Py.join " " argv
  | ShellLine line => line
  end.

(** The answer a script gives to a command line; a command the script does
    not list exits with status 1 and prints nothing. *)
Fixpoint answer_of (script : list (string * ProcOutcome)) (line : string)
  : ProcOutcome :=
  match script with
  | [] => Exited 1 "" ""
  | (l, o) :: rest => if bool_decide (l = line) then o else answer_of rest line
  end.

(** A host that answers by a fixed script, whose clock stands still, whose
    files can be written and whose operator says yes. *)
Definition scripted (script : list (string * ProcOutcome)) : Env :=
  {| spawn := λ _ c _, answer_of script (command_line c);
     clock := λ _, 0%Q;
     write := λ _ _ _, None;
     save := λ _ _, None;
     answer := λ _ _, true |}.

Definition host (e : Env) (c : option EasyTierConfig.t) (mode : string)
  : World :=
  {| trace := []; env := e; config := c; forward_mode := mode |}.

(** A host on which three resolvers answer: 10.202.10.10 in 10 ms, 1.1.1.1
    and 8.8.8.8 in 7 ms; every other query times out after 2800 ms. *)
Definition answers_in (dns_ip : string) : option Z :=
  if bool_decide (dns_ip = "10.202.10.10") then Some 10
  else if bool_decide (dns_ip = "1.1.1.1") then Some 7
  else if bool_decide (dns_ip = "8.8.8.8") then Some 7
  else None.

Definition elapsed_ms (e : Event) : Z :=
  match e with
  | Spawn (Argv [prog; _; dns_ip]) _ =>
      if bool_decide (prog = "nslookup") then default 2800 (answers_in dns_ip)
      else 0
  | _ => 0
  end.

Definition scan_env : Env :=
  {| spawn := λ _ c _,
       match c with
       | Argv [prog; _; dns_ip] =>
           if bool_decide (prog = "nslookup") then
             match answers_in dns_ip with
             | Some _ => Exited 0 "" ""
             | None => TimedOut
             end
           else Exited 1 "" ""
       | Argv [prog; name] =>
           if bool_decide (prog = "which" ∧ name = "nslookup")
           then Exited 0 "/usr/bin/nslookup" ""
           else Exited 1 "" ""
       | _ => Exited 1 "" ""
       end;
     clock := λ past, foldr (λ e acc, elapsed_ms e + acc) 0 past # 1000;
     write := λ _ _ _, None;
     save := λ _ _, None;
     answer := λ _ _, true |}.

Definition scan_host : World := host scan_env None "none".

(** The ranked list the scan produces on [scan_host]. *)
Definition scan_results : list Dns.ScoreEntry :=
  [ {| Dns.score := 10.0; Dns.name := "رادار"; Dns.ip := "10.202.10.10";
       Dns.latency1 := 10.0; Dns.latency2 := 10.0 |};
    {| Dns.score := 7.0; Dns.name := "Gaming DNS 15"; Dns.ip := "1.1.1.1";
       Dns.latency1 := 7.0; Dns.latency2 := 7.0 |};
    {| Dns.score := 7.0; Dns.name := "مخابرات"; Dns.ip := "8.8.8.8";
       Dns.latency1 := 7.0; Dns.latency2 := 7.0 |} ].


(** A tunnel forwarding ports 80 and 443. *)
Definition sample_tunnel : EasyTierConfig.t :=
  {| EasyTierConfig.name := "tunnel1";
     EasyTierConfig.local_ip := "10.155.155.1";
     EasyTierConfig.peer_ip := Some "203.0.113.7";
     EasyTierConfig.port := 2070;
     EasyTierConfig.network_secret := "vortexl2";
     EasyTierConfig.interface_name := "tun1";
     EasyTierConfig.hostname := "node1";
     EasyTierConfig.forwarded_ports := [80; 443];
     EasyTierConfig.remote_forward_ip := Some "10.155.155.2";
     EasyTierConfig.auto_save := true |}.

(** The same tunnel without a remote forward address. *)
Definition tunnel_without_remote : EasyTierConfig.t :=
  {| EasyTierConfig.name := "tunnel1";
     EasyTierConfig.local_ip := "10.155.155.1";
     EasyTierConfig.peer_ip := Some "203.0.113.7";
     EasyTierConfig.port := 2070;
     EasyTierConfig.network_secret := "vortexl2";
     EasyTierConfig.interface_name := "tun1";
     EasyTierConfig.hostname := "node1";
     EasyTierConfig.forwarded_ports := [80; 443];
     EasyTierConfig.remote_forward_ip := None;
     EasyTierConfig.auto_save := true |}.

(** nginx (process 1234) listens on port 8080. *)
Definition nginx_on_8080 : list (string * ProcOutcome) :=
  [("netstat -tlnp 2>/dev/null | grep -E ':8080\b'",
    Exited 0 "tcp 0 0 0.0.0.0:8080 0.0.0.0:* LISTEN 1234/nginx" "");
   ("lsof -i :8080 -t 2>/dev/null | head -1", Exited 0 "1234" "");
   ("ps -p 1234 -o comm=", Exited 0 "nginx" "")].

(** socat installed, port 8080 taken by nginx. *)
Definition busy_host : World :=
  host (scripted (("which socat", Exited 0 "/usr/bin/socat" "")
                  :: nginx_on_8080))
    (Some sample_tunnel) "socat".

(** Port 8080 taken by nginx, socat not installed. *)
Definition host_without_socat : World :=
  host (scripted nginx_on_8080) (Some sample_tunnel) "socat".

(** Port 8080 taken by nginx, the tunnel has no remote forward address. *)
Definition host_without_remote : World :=
  host (scripted (("which socat", Exited 0 "/usr/bin/socat" "")
                  :: nginx_on_8080))
    (Some tunnel_without_remote) "socat".

(** Nothing listens, nothing is installed. *)
Definition idle_host : World := host (scripted []) (Some sample_tunnel) "socat".

(** The same host seen by a manager built without a configuration. *)
Definition unconfigured_host : World := host (scripted []) None "socat".

(** ** Listing and starting the forwards *)

(** The ports [list_forwards] and [start_all_forwards] go through: those
    of the tunnels that have a remote forward address, in order. *)
Definition forwardable_ports (tunnels : list EasyTierConfig.t) : list Z :=
  concat
    (map (λ t, match Socat.configured_ip (EasyTierConfig.remote_forward_ip t) with
               | Some _ => EasyTierConfig.forwarded_ports t
               | None => []
               end) tunnels).

(** The command line by which [start_forward] starts socat. *)
Definition socat_cmd (local_port : Z) (remote_ip : string) (remote_port : Z)
  : string :=
  "nohup socat TCP-LISTEN:" +:+ Py.str_of_int local_port
  +:+ ",fork,reuseaddr TCP:" +:+ remote_ip +:+ ":"
  +:+ Py.str_of_int remote_port +:+ " >/dev/null 2>&1 &".


(** ** Events of the scan *)




(** The candidate an entry of the scan stands for. *)
Definition candidate_of (r : Dns.ScoreEntry) : string * string :=
  (Dns.name r, Dns.ip r).

(** ** Numerals and plain text *)

(** Strings of decimal digits. *)
Fixpoint all_digits (s : string) : bool :=
  match s with
  | EmptyString => true
  | String c s' => Py.is_digit c && all_digits s'
  end.

(** A printable character other than the space: no white space starts or
    ends with its byte. *)
Definition plain (c : ascii) : bool :=
  ((33 <=? Py.code c) && (Py.code c <=? 126))%N.

Definition starts_plain (s : string) : bool :=
  match s with
  | String c _ => plain c
  | EmptyString => false
  end.

(** ** The ports string of the bulk helpers *)

(** What the operator types between two commas: one port, or a range. *)
Inductive PortItem : Type :=
| Single (n : Z)
| Span (first last : Z).

Definition render (item : PortItem) : string :=
  match item with
  | Single n => Py.str_of_int n
  | Span first last => Py.str_of_int first +:+ "-" +:+ Py.str_of_int last
  end.

Definition ports_of (item : PortItem) : list Z :=
  match item with
  | Single n => [n]
  | Span first last => Py.range first (last + 1)
  end.

Definition natural (item : PortItem) : Prop :=
  match item with
  | Single n => 0 ≤ n
  | Span first last => 0 ≤ first ∧ 0 ≤ last
  end.

(** ** The cron file *)

(** The text of the cron file around the interval. *)
Definition cron_head : string :=
  "SHELL=/bin/bash" +:+ Py.nl
  +:+ "PATH=/usr/local/sbin:/usr/local/bin:/sbin:/bin:/usr/sbin:/usr/bin"
  +:+ Py.nl +:+ "0 ".

Definition cron_tail : string :=
  " * * * root /usr/local/bin/vortexl2-dns-check " +:+ DnsCron.cron_marker
  +:+ Py.nl.

(** * Properties *)

(** ** Candidate normalisation *)

Section Normalize.

Implicit Types (raw pre : list (string * string)) (seen : gset string).

Lemma normalize_inv_init : normalize_inv [] (∅, []).
Proof.
  unfold normalize_inv. split_and!; [set_solver|constructor|set_solver..].
Qed.

Lemma normalize_inv_step pre st e :
  normalize_inv pre st → normalize_inv (pre ++ [e]) (Dns.normalize_step st e).
Proof.
  destruct st as [seen out], e as [name ip].
  intros (Hseen & Hnd & Hread & Hout).
  assert (Hold : ∀ n a, (n, a) ∈ out →
            a ≠ "0.0.0.0" ∧ a ≠ "" ∧
            ∃ p rn ri q,
              pre ++ [(name, ip)] = p ++ (rn, ri) :: q ∧ Py.strip ri = a ∧
              Py.strip rn = n ∧ ∀ e, e ∈ p → Py.strip e.2 ≠ a).
  { intros n a Hin. destruct (Hout n a Hin) as (? & ? & p & rn & ri & q & -> & ? & ? & ?).
    split_and!; [done..|]. exists p, rn, ri, (q ++ [(name, ip)]).
    by rewrite <- app_assoc. }
  unfold Dns.normalize_step.
  destruct (bool_decide (Py.strip ip = "0.0.0.0")) eqn:Hz; simpl.
  { apply bool_decide_eq_true in Hz. split_and!; [done..| |done].
    intros e [He | ->%list_elem_of_singleton]%elem_of_app; [auto|]. by left. }
  destruct (bool_decide (Py.strip ip = "")) eqn:He; simpl.
  { apply bool_decide_eq_true in He. split_and!; [done..| |done].
    intros e [Hin | ->%list_elem_of_singleton]%elem_of_app; [auto|]. by right; left. }
  apply bool_decide_eq_false in Hz, He.
  destruct (bool_decide (Py.strip ip ∈ seen)) eqn:Hs.
  { apply bool_decide_eq_true in Hs. split_and!; [done..| |done].
    intros e [Hin | ->%list_elem_of_singleton]%elem_of_app; [auto|]. by right; right. }
  apply bool_decide_eq_false in Hs.
  split_and!.
  - intros a. rewrite fmap_app, elem_of_app, elem_of_union, Hseen. simpl.
    rewrite elem_of_singleton, list_elem_of_singleton. tauto.
  - rewrite fmap_app. apply NoDup_app. split_and!; [done| |apply NoDup_singleton].
    intros a Ha ->%list_elem_of_singleton. apply Hs, Hseen, Ha.
  - intros e [Hin | ->%list_elem_of_singleton]%elem_of_app.
    + destruct (Hread e Hin) as [?|[?|?]]; [by left|by right; left|].
      right; right. apply elem_of_union. by right.
    + right; right. apply elem_of_union. left. by apply elem_of_singleton.
  - intros n a [Hin | Hnew%list_elem_of_singleton]%elem_of_app; [by apply Hold|].
    injection Hnew as -> ->. split_and!; [done..|].
    exists pre, name, ip, []. split_and!; [done..|].
    intros e Hin Heq. destruct (Hread e Hin) as [H0|[H0|H0]]; congruence.
Qed.

Lemma normalize_inv_fold raw : ∀ pre st,
  normalize_inv pre st →
  normalize_inv (pre ++ raw) (fold_left Dns.normalize_step raw st).
Proof.
  induction raw as [|e raw IH]; intros pre st Hinv; simpl.
  - by rewrite app_nil_r.
  - replace (pre ++ e :: raw) with ((pre ++ [e]) ++ raw) by by rewrite <- app_assoc.
    by apply IH, normalize_inv_step.
Qed.

(** C8. For every raw candidate list, the addresses of
    [normalize_dns_list raw] are pairwise distinct, none is ["0.0.0.0"] and
    none is empty; and every entry kept is the stripped form of the first
    entry of [raw] whose stripped address is that address (first occurrence
    wins). *)
Theorem normalize_dns_list_distinct_valid_first raw :
  NoDup (Dns.normalize_dns_list raw).*2 ∧
  ∀ name ip, (name, ip) ∈ Dns.normalize_dns_list raw →
    ip ≠ "0.0.0.0" ∧ ip ≠ "" ∧
    ∃ pre raw_name raw_ip post,
      raw = pre ++ (raw_name, raw_ip) :: post ∧
      Py.strip raw_ip = ip ∧ Py.strip raw_name = name ∧
      ∀ e, e ∈ pre → Py.strip e.2 ≠ ip.
Proof.
  unfold Dns.normalize_dns_list.
  pose proof (normalize_inv_fold raw [] (∅, []) normalize_inv_init) as Hinv.
  destruct (fold_left Dns.normalize_step raw (∅, [])) as [seen out].
  destruct Hinv as (_ & Hnd & _ & Hout). simpl. split; [done|].
  intros name ip Hin. apply Hout, Hin.
Qed.

End Normalize.

(** ** The monad *)

Lemma bind_ok {A B} (m : M A) (k : A → M B) w a w' :
  m w = (Ok a, w') → bind m k w = k a w'.
Proof. unfold bind. by intros ->. Qed.

Lemma bind_raise {A B} (m : M A) (k : A → M B) w e w' :
  m w = (Raise e, w') → bind m k w = (Raise e, w').
Proof. unfold bind. by intros ->. Qed.

Lemma run_exec {A} (m : M A) w : m w = (run m w, exec m w).
Proof. unfold run, exec. by destruct (m w). Qed.

(** No computation built from the primitives changes the environment. *)
Lemma keeps_env_ret {A} (a : A) : keeps_env (ret a).
Proof. by intros w. Qed.

Lemma keeps_env_raise {A} e : keeps_env (@raise A e).
Proof. by intros w. Qed.

Lemma keeps_env_bind {A B} (m : M A) (k : A → M B) :
  keeps_env m → (∀ a, keeps_env (k a)) → keeps_env (bind m k).
Proof.
  intros Hm Hk w. unfold bind. specialize (Hm w).
  destruct (m w) as [[a|e] w1]; cbn [snd] in *; [|done].
  by rewrite (Hk a w1).
Qed.

Lemma keeps_env_catch {A} (m : M A) (h : exn → M A) :
  keeps_env m → (∀ e, keeps_env (h e)) → keeps_env (catch m h).
Proof.
  intros Hm Hh w. unfold catch. specialize (Hm w).
  destruct (m w) as [[a|e] w1]; cbn [snd] in *; [done|].
  by rewrite (Hh e w1).
Qed.

Lemma keeps_env_subprocess_run cmd timeout :
  keeps_env (subprocess_run cmd timeout).
Proof. intros w. unfold subprocess_run. by destruct (spawn _ _ _ _). Qed.

Lemma keeps_env_time : keeps_env time.
Proof. by intros w. Qed.

Lemma keeps_env_write_file path content :
  keeps_env (write_file path content).
Proof. intros w. unfold write_file. by destruct (write _ _ _ _). Qed.

Lemma keeps_env_sleep seconds : keeps_env (sleep seconds).
Proof. by intros w. Qed.

Lemma keeps_env_persist e : keeps_env (persist e).
Proof. intros w. unfold persist. by destruct (save _ _ _). Qed.

Lemma keeps_env_get_config : keeps_env get_config.
Proof. by intros w. Qed.

Lemma keeps_env_put_config c : keeps_env (put_config c).
Proof. by intros w. Qed.

Ltac env_step :=
  lazymatch goal with
  | |- keeps_env (ret _) => apply keeps_env_ret
  | |- keeps_env (raise _) => apply keeps_env_raise
  | |- keeps_env (subprocess_run _ _) => apply keeps_env_subprocess_run
  | |- keeps_env (sleep _) => apply keeps_env_sleep
  | |- keeps_env time => apply keeps_env_time
  | |- keeps_env (write_file _ _) => apply keeps_env_write_file
  | |- keeps_env (persist _) => apply keeps_env_persist
  | |- keeps_env get_config => apply keeps_env_get_config
  | |- keeps_env (put_config _) => apply keeps_env_put_config
  | |- keeps_env (catch _ _) => apply keeps_env_catch; [|intros ?]
  | |- keeps_env (bind _ _) => apply keeps_env_bind; [|intros ?]
  | |- keeps_env (if ?b then _ else _) => destruct b
  | |- keeps_env (match ?x with _ => _ end) => destruct x
  end.

(** ** Selection of the best candidate *)

Section Sorted.

Context {A : Type} (key : A → Q).

Lemma insert_by_perm x l : Py.insert_by key x l ≡ₚ x :: l.
Proof.
  induction l as [|y l IH]; simpl; [done|].
  destruct (Qlt_le_dec (key y) (key x)); [|done].
  rewrite IH. apply Permutation_swap.
Qed.

Lemma sorted_perm l : Py.sorted key l ≡ₚ l.
Proof.
  induction l as [|x l IH]; simpl; [done|].
  by rewrite insert_by_perm, IH.
Qed.

(** The head of the sorted list is the first element of the list with the
    least key: everything before it is strictly larger, nothing after it
    is smaller. *)
Lemma sorted_head l :
  l ≠ [] →
  ∃ best rest pre post,
    Py.sorted key l = best :: rest ∧ l = pre ++ best :: post ∧
    (∀ r, r ∈ pre → (key best < key r)%Q) ∧
    (∀ r, r ∈ post → (key best <= key r)%Q).
Proof.
  induction l as [|x l IH]; [done|]. intros _. simpl.
  destruct l as [|y l'].
  { exists x, [], [], []. split_and!; [done..| |]; intros r Hr; inversion Hr. }
  destruct IH as (b & rest & pre & post & -> & Hl & Hpre & Hpost); [done|].
  simpl. destruct (Qlt_le_dec (key b) (key x)) as [Hlt|Hle].
  - exists b, (Py.insert_by key x rest), (x :: pre), post.
    split_and!; [done|by rewrite Hl| |done].
    intros r [->|Hr]%elem_of_cons; [done|by apply Hpre].
  - exists x, (b :: rest), [], (y :: l').
    split_and!; [done..| |].
    { intros r Hr; inversion Hr. }
    intros r Hr. rewrite Hl in Hr.
    apply elem_of_app in Hr as [Hr|Hr].
    + apply Qlt_le_weak. eapply Qle_lt_trans; [exact Hle|by apply Hpre].
    + apply elem_of_cons in Hr as [->|Hr]; [done|].
      eapply Qle_trans; [exact Hle|by apply Hpost].
Qed.

End Sorted.

Lemma apply_dns_returns dns_ip w :
  ∃ success msg, run (Dns.apply_dns dns_ip) w = Ok (success, msg).
Proof.
  unfold run, Dns.apply_dns, catch.
  destruct (Dns.apply_dns_try dns_ip w) as [[[s m]|e] w']; simpl; eauto.
Qed.

(** C1. When [nslookup] is available and the scan of the catalogue ends
    with the ranked list [results]: if that list is empty the operation
    reports failure and selects nothing; otherwise the candidate it selects
    and hands to [apply_dns] has the least score, every result scanned
    before it has a strictly larger score, and none after it has a smaller
    one, so among equal least scores the earliest in scan order wins.  The
    operation then answers with that candidate: failure when [apply_dns]
    failed, success once the selection is saved; only the unguarded save
    can make it raise. *)
Theorem scan_selects_least_score_earliest callback w results :
  run (Dns.has_cmd "nslookup") w = Ok true →
  run (Dns.scan callback (Dns.normalize_dns_list Dns.RAW_DNS_LIST) [])
    (exec (Dns.has_cmd "nslookup") w) = Ok results →
  match results with
  | [] =>
      run (Dns.scan_and_apply_best_dns callback) w
      = Ok (false, "No DNS server could resolve both test domains.", None)
  | _ :: _ =>
      ∃ best pre post success detail,
        results = pre ++ best :: post ∧
        (∀ r, r ∈ pre → (Dns.score best < Dns.score r)%Q) ∧
        (∀ r, r ∈ post → (Dns.score best <= Dns.score r)%Q) ∧
        run (Dns.apply_dns (Dns.ip best))
          (exec (Dns.scan callback
                   (Dns.normalize_dns_list Dns.RAW_DNS_LIST) [])
             (exec (Dns.has_cmd "nslookup") w))
        = Ok (success, detail) ∧
        run (Dns.scan_and_apply_best_dns callback) w
        = if success then
            match run (Dns.save_dns_config (Dns.ip best) (Dns.name best))
                    (exec (Dns.apply_dns (Dns.ip best))
                       (exec (Dns.scan callback
                                (Dns.normalize_dns_list Dns.RAW_DNS_LIST) [])
                          (exec (Dns.has_cmd "nslookup") w))) with
            | Ok _ =>
                Ok (true,
                    "Best DNS: " +:+ Dns.name best +:+ " (" +:+ Dns.ip best
                    +:+ ") - Score: " +:+ Py.str_of_float1 (Dns.score best)
                    +:+ "ms" +:+ Py.nl +:+ detail,
                    Some best)
            | Raise e => Raise e
            end
          else
            Ok (false, "Found best DNS but failed to apply: " +:+ detail,
                Some best)
  end.
Proof.
  unfold Dns.scan_and_apply_best_dns. cbv zeta.
  generalize (Dns.normalize_dns_list Dns.RAW_DNS_LIST) as dns_list.
  intros dns_list Hcmd Hscan.
  set (w0 := exec (Dns.has_cmd "nslookup") w) in *.
  set (w1 := exec (Dns.scan callback dns_list []) w0).
  assert (H0 : Dns.has_cmd "nslookup" w = (Ok true, w0)).
  { rewrite (run_exec _ w). rewrite Hcmd. reflexivity. }
  assert (H1 : Dns.scan callback dns_list [] w0 = (Ok results, w1)).
  { rewrite (run_exec _ w0). rewrite Hscan. reflexivity. }
  destruct results as [|r0 results'].
  - unfold run.
    rewrite (bind_ok _ _ _ _ _ H0). cbn [negb].
    rewrite (bind_ok _ _ _ _ _ H1). reflexivity.
  - destruct (sorted_head Dns.score (r0 :: results'))
      as (best & rest & pre & post & Hs & Hl & Hpre & Hpost); [discriminate|].
    destruct (apply_dns_returns (Dns.ip best) w1) as (success & detail & Happ).
    set (w2 := exec (Dns.apply_dns (Dns.ip best)) w1).
    assert (H2 : Dns.apply_dns (Dns.ip best) w1 = (Ok (success, detail), w2)).
    { rewrite (run_exec _ w1). rewrite Happ. reflexivity. }
    exists best, pre, post, success, detail.
    split; [exact Hl|]. split; [exact Hpre|]. split; [exact Hpost|].
    split; [exact Happ|].
    unfold run at 1.
    rewrite (bind_ok _ _ _ _ _ H0). cbn [negb].
    rewrite (bind_ok _ _ _ _ _ H1), Hs, (bind_ok _ _ _ _ _ H2).
    destruct success; [|reflexivity].
    unfold bind, run.
    change (exec (Dns.apply_dns (Dns.ip best)) w1) with w2.
    destruct (Dns.save_dns_config (Dns.ip best) (Dns.name best) w2)
      as [[[]|e] w3]; reflexivity.
Qed.

(** ** The latency probe *)

Lemma emitted_app {A} (m : M A) w es :
  trace (exec m w) = trace w ++ es → emitted m w = es.
Proof. unfold emitted. intros ->. by rewrite drop_app_length. Qed.

Lemma nslookup_attempt_spec domain dns_ip total ok w :
  Dns.nslookup_attempt domain dns_ip (total, ok) w
  = (Ok match attempt_sample domain dns_ip w with
        | Some ms => ((total + ms)%Q, ok + 1)
        | None => (total, ok)
        end,
     attempt_world domain dns_ip w).
Proof.
  unfold Dns.nslookup_attempt, attempt_world, attempt_sample, bind, catch,
    time, Dns._run, subprocess_run, nslookup_cmd.
  cbn [trace env log].
  destruct (spawn _ _ _ _) as [rc out err| |msg]; cbn; [|done..].
  by destruct (rc =? 0).
Qed.

Lemma nslookup_attempts_spec n domain dns_ip : ∀ total ok w,
  Dns.nslookup_attempts n domain dns_ip (total, ok) w
  = (Ok (fold_left Qplus
           (successes (attempt_samples n domain dns_ip w).1) total,
         ok + Z.of_nat
                (length (successes (attempt_samples n domain dns_ip w).1))),
     (attempt_samples n domain dns_ip w).2).
Proof.
  induction n as [|n IH]; intros total ok w;
    cbn [Dns.nslookup_attempts attempt_samples].
  { unfold ret. cbn. do 3 f_equal. lia. }
  rewrite (bind_ok _ _ _ _ _ (nslookup_attempt_spec _ _ _ _ _)).
  destruct (attempt_sample domain dns_ip w) as [ms|]; rewrite IH;
    destruct (attempt_samples n _ _ _) as [samples w']; cbn; [|done].
  do 3 f_equal. lia.
Qed.

Lemma attempt_samples_length n domain dns_ip : ∀ w,
  length (attempt_samples n domain dns_ip w).1 = n.
Proof.
  induction n as [|n IH]; intros w; simpl; [done|].
  specialize (IH (attempt_world domain dns_ip w)).
  destruct (attempt_samples n _ _ _). simpl in *. by rewrite IH.
Qed.

Lemma attempt_world_trace domain dns_ip w :
  ∃ es, trace (attempt_world domain dns_ip w) = trace w ++ es ∧
        filter is_spawn es = [nslookup_cmd domain dns_ip] ∧
        Forall (λ e, e = ReadClock ∨ e = nslookup_cmd domain dns_ip) es.
Proof.
  unfold attempt_world.
  destruct (attempt_sample domain dns_ip w); cbn [trace log];
    rewrite <- !app_assoc; eexists; (split; [reflexivity|]);
    (split; [reflexivity|]);
    repeat (apply Forall_cons_2; [first [by left | by right]|]);
    apply Forall_nil_2.
Qed.

Lemma attempt_samples_trace n domain dns_ip : ∀ w,
  ∃ es, trace (attempt_samples n domain dns_ip w).2 = trace w ++ es ∧
        filter is_spawn es = replicate n (nslookup_cmd domain dns_ip) ∧
        Forall (λ e, e = ReadClock ∨ e = nslookup_cmd domain dns_ip) es.
Proof.
  induction n as [|n IH]; intros w; simpl.
  { exists []. by rewrite app_nil_r. }
  destruct (attempt_world_trace domain dns_ip w) as (es1 & H1 & Hs1 & Hf1).
  destruct (IH (attempt_world domain dns_ip w)) as (es2 & H2 & Hs2 & Hf2).
  destruct (attempt_samples n _ _ _) as [samples w']. simpl in *.
  exists (es1 ++ es2). split_and!.
  - by rewrite H2, H1, app_assoc.
  - by rewrite filter_app, Hs1, Hs2.
  - by apply Forall_app.
Qed.

Lemma nslookup_latency_ms_spec domain dns_ip w :
  Dns.nslookup_latency_ms domain dns_ip w
  = (Ok (mean_rounded
           (successes (attempt_samples Dns.REPEAT domain dns_ip w).1)),
     (attempt_samples Dns.REPEAT domain dns_ip w).2).
Proof.
  unfold Dns.nslookup_latency_ms.
  rewrite (bind_ok _ _ _ _ _ (nslookup_attempts_spec _ _ _ _ _ _)).
  destruct (attempt_samples _ _ _ _) as [samples w']. cbn [fst snd].
  destruct (successes samples) as [|x xs];
    cbn [length fold_left mean_rounded]; [reflexivity|].
  rewrite Z.add_0_l.
  destruct (Z.of_nat (S (length xs)) =? 0) eqn:Hz;
    [apply Z.eqb_eq in Hz; lia|reflexivity].
Qed.

(** C7. For every domain, address and world, the probe returns without
    raising, whatever each attempt does (exit status, timeout, failure to
    start); it makes [REPEAT = 2] attempts, each one [nslookup] sub-process
    bounded by [TIMEOUT]; its value is the mean, rounded to one decimal, of
    the elapsed milliseconds of the attempts that exited with status 0, and
    [None] when no attempt did. *)
Theorem nslookup_latency_ms_mean_of_successes domain dns_ip w :
  let samples := (attempt_samples Dns.REPEAT domain dns_ip w).1 in
  run (Dns.nslookup_latency_ms domain dns_ip) w
  = Ok (mean_rounded (successes samples)) ∧
  length samples = 2%nat ∧
  filter is_spawn (emitted (Dns.nslookup_latency_ms domain dns_ip) w)
  = [nslookup_cmd domain dns_ip; nslookup_cmd domain dns_ip] ∧
  (run (Dns.nslookup_latency_ms domain dns_ip) w = Ok None
   ↔ Forall (λ s, s = None) samples).
Proof.
  intros samples. subst samples.
  pose proof (nslookup_latency_ms_spec domain dns_ip w) as Hspec.
  unfold run. rewrite Hspec. cbn [fst].
  split_and!; [done|apply attempt_samples_length| |].
  - destruct (attempt_samples_trace Dns.REPEAT domain dns_ip w) as (es & Ht & Hs & _).
    rewrite (emitted_app _ _ es); [done|]. unfold exec. by rewrite Hspec.
  - generalize (attempt_samples Dns.REPEAT domain dns_ip w).1. intros l.
    split.
    + intros Hn. assert (successes l = []) as Hnil.
      { destruct (successes l); [done|discriminate]. }
      clear Hn. induction l as [|[x|] l IH]; [constructor|discriminate|].
      constructor; [done|]. by apply IH.
    + intros Hall. assert (successes l = []) as ->; [|done].
      induction Hall as [|s l -> _ IH]; [done|]. exact IH.
Qed.

(** ** Scoring a candidate *)

(** C3. For every candidate address: when the probe of the primary
    validation domain returns [None], scoring returns [None] and stops
    there, having started no sub-process but the [nslookup] of the primary
    domain, so the secondary domain is never probed; and scoring returns a
    score exactly when both probes return a latency, the score being their
    mean, as binary64 arithmetic gives it, rounded to one decimal. *)
Theorem score_dns_short_circuit dns_ip w :
  let primary := Dns.nslookup_latency_ms Dns.TEST_DOMAIN_1 dns_ip in
  let secondary := Dns.nslookup_latency_ms Dns.TEST_DOMAIN_2 dns_ip in
  (run primary w = Ok None →
   run (Dns.score_dns dns_ip) w = Ok None ∧
   exec (Dns.score_dns dns_ip) w = exec primary w ∧
   Forall (λ e, e = ReadClock ∨ e = nslookup_cmd Dns.TEST_DOMAIN_1 dns_ip)
     (emitted (Dns.score_dns dns_ip) w) ∧
   nslookup_cmd Dns.TEST_DOMAIN_2 dns_ip ∉ emitted (Dns.score_dns dns_ip) w) ∧
  (∀ score lat1 lat2,
     run (Dns.score_dns dns_ip) w = Ok (Some (score, lat1, lat2)) ↔
     run primary w = Ok (Some lat1) ∧
     run secondary (exec primary w) = Ok (Some lat2) ∧
     score
     = Py.round1
         (Py.fdiv (Py.fadd (Py.binary64 lat1) (Py.binary64 lat2)) 2.0)).
Proof.
  intros primary secondary. subst primary secondary.
  pose proof (nslookup_latency_ms_spec Dns.TEST_DOMAIN_1 dns_ip w) as H1.
  destruct (attempt_samples_trace Dns.REPEAT Dns.TEST_DOMAIN_1 dns_ip w)
    as (es & Htrace & _ & Hall).
  set (w1 := (attempt_samples Dns.REPEAT Dns.TEST_DOMAIN_1 dns_ip w).2) in *.
  pose proof (nslookup_latency_ms_spec Dns.TEST_DOMAIN_2 dns_ip w1) as H2.
  revert H1 H2.
  generalize (mean_rounded
    (successes (attempt_samples Dns.REPEAT Dns.TEST_DOMAIN_1 dns_ip w).1)).
  generalize (mean_rounded
    (successes (attempt_samples Dns.REPEAT Dns.TEST_DOMAIN_2 dns_ip w1).1)).
  generalize ((attempt_samples Dns.REPEAT Dns.TEST_DOMAIN_2 dns_ip w1).2).
  intros w2 m2 m1 H1 H2.
  unfold run, exec, emitted, exec, Dns.score_dns.
  rewrite (bind_ok _ _ _ _ _ H1), H1. cbn [fst snd].
  destruct m1 as [lat1|].
  - split; [discriminate|].
    rewrite (bind_ok _ _ _ _ _ H2), H2. cbn [fst snd].
    intros score l1 l2. destruct m2 as [lat2|]; unfold ret; cbn [fst]; split.
    + intros [= <- <- <-]. done.
    + intros ([= <-] & [= <-] & ->). done.
    + discriminate.
    + intros (_ & [=] & _).
  - split.
    + intros _. unfold ret. cbn [fst snd]. rewrite Htrace, drop_app_length.
      split_and!; [done..|].
      intros Hin. rewrite Forall_forall in Hall.
      destruct (Hall _ Hin) as [[=]|[=]].
    + intros score l1 l2. unfold ret. cbn [fst]. split; [discriminate|].
      intros ([=] & _).
Qed.

(** ** Committing an address *)

Lemma bind_ret {A B} (a : A) (k : A → M B) w : bind (ret a) k w = k a w.
Proof. reflexivity. Qed.















(** ** The socat driver *)

Lemma run_command_spec cmd w :
  Socat.run_command cmd w = (Ok (shell_result cmd w), ran cmd w).
Proof.
  unfold Socat.run_command, shell_result, ran, catch, bind, subprocess_run, ret.
  by destruct (spawn _ _ _ _).
Qed.

Lemma check_socat_installed_spec w :
  Socat.check_socat_installed w
  = (Ok (shell_result "which socat" w).1.1, ran "which socat" w).
Proof.
  unfold Socat.check_socat_installed.
  by rewrite (bind_ok _ _ _ _ _ (run_command_spec _ _)).
Qed.

Lemma is_port_listening_spec port w :
  Socat._is_port_listening port w
  = (Ok (listening port w), ran (netstat_cmd port) w).
Proof.
  unfold Socat._is_port_listening.
  by rewrite (bind_ok _ _ _ _ _ (run_command_spec _ _)).
Qed.

Lemma append_nonempty (s t : string) : t ≠ "" → s +:+ t ≠ "".
Proof. destruct s; [done|]. discriminate. Qed.

(** The description [_get_port_process] gives is never empty, so
    [proc or 'unknown process'] keeps it. *)
Lemma get_port_process_spec port w :
  ∃ proc w',
    Socat._get_port_process port w = (Ok proc, w') ∧
    config w' = config w ∧
    Socat.proc_or_unknown proc
    = match proc with Some p => p | None => "unknown process" end.
Proof.
  unfold Socat._get_port_process.
  rewrite (bind_ok _ _ _ _ _ (run_command_spec _ _)).
  destruct (shell_result _ w) as [[success out] err].
  destruct (success && negb (bool_decide (Py.strip out = ""))).
  - rewrite (bind_ok _ _ _ _ _ (run_command_spec _ _)).
    destruct (shell_result _ _) as [[success' ps_out] err'].
    eexists _, _. split; [reflexivity|]. split; [reflexivity|].
    unfold Socat.proc_or_unknown. rewrite bool_decide_eq_false_2; [done|].
    apply append_nonempty. discriminate.
  - eexists _, _. split; [reflexivity|]. by split.
Qed.

Lemma start_forward_spec local_port remote_ip remote_port w :
  ∃ success msg w',
    Socat.start_forward local_port remote_ip remote_port w
    = (Ok (success, msg), w') ∧ config w' = config w.
Proof.
  unfold Socat.start_forward.
  rewrite (bind_ok _ _ _ _ _ (check_socat_installed_spec _)).
  destruct (_.1.1); cbn [negb]; [|by eexists _, _, _].
  rewrite (bind_ok _ _ _ _ _ (is_port_listening_spec _ _)).
  destruct (listening _ _).
  { destruct (get_port_process_spec local_port
                (ran (netstat_cmd local_port) (ran "which socat" w)))
      as (proc & w' & Hp & Hc & _).
    rewrite (bind_ok _ _ _ _ _ Hp). by eexists _, _, _. }
  rewrite (bind_ok _ _ _ _ _ (run_command_spec _ _)).
  destruct (shell_result _ _) as [[success out] err].
  destruct success; cbn [negb]; [|by eexists _, _, _].
  unfold sleep, bind at 1.
  rewrite (bind_ok _ _ _ _ _ (is_port_listening_spec _ _)).
  destruct (listening _ _); by eexists _, _, _.
Qed.

Lemma stop_forward_spec local_port w :
  ∃ success msg w',
    Socat.stop_forward local_port w = (Ok (success, msg), w') ∧
    config w' = config w.
Proof.
  unfold Socat.stop_forward.
  rewrite (bind_ok _ _ _ _ _ (is_port_listening_spec _ _)).
  destruct (listening _ _); cbn [negb]; [|by eexists _, _, _].
  rewrite (bind_ok _ _ _ _ _ (run_command_spec _ _)).
  unfold sleep, bind at 1.
  rewrite (bind_ok _ _ _ _ _ (is_port_listening_spec _ _)).
  destruct (listening _ _); by eexists _, _, _.
Qed.

Lemma get_config_spec w : get_config w = (Ok (config w), w).
Proof. reflexivity. Qed.

Lemma keeps_env_run_command cmd : keeps_env (Socat.run_command cmd).
Proof. unfold Socat.run_command. repeat env_step. Qed.

Ltac socat_env_step :=
  lazymatch goal with
  | |- keeps_env (Socat.run_command _) => apply keeps_env_run_command
  | |- _ => env_step
  end.

Lemma keeps_env_start_forward local_port remote_ip remote_port :
  keeps_env (Socat.start_forward local_port remote_ip remote_port).
Proof.
  unfold Socat.start_forward, Socat.check_socat_installed,
    Socat._is_port_listening, Socat._get_port_process.
  repeat socat_env_step.
Qed.

Lemma keeps_env_stop_forward local_port :
  keeps_env (Socat.stop_forward local_port).
Proof.
  unfold Socat.stop_forward, Socat._is_port_listening.
  repeat socat_env_step.
Qed.

Lemma keeps_env_create_forward port : keeps_env (Socat.create_forward port).
Proof.
  unfold Socat.create_forward, EasyTierManager.add_port,
    EasyTierManager.forwarded_ports_setter, EasyTierManager._save.
  repeat first [apply keeps_env_start_forward | socat_env_step].
Qed.

Lemma keeps_env_remove_forward port : keeps_env (Socat.remove_forward port).
Proof.
  unfold Socat.remove_forward, EasyTierManager.remove_port,
    EasyTierManager.forwarded_ports_setter, EasyTierManager._save.
  repeat first [apply keeps_env_stop_forward | socat_env_step].
Qed.

Lemma setter_spec c value w :
  EasyTierManager.forwarded_ports_setter c value w
  = (match save_error (EasyTierConfig.set_forwarded_ports c value) w with
     | None => Ok tt
     | Some msg => Raise (OSError msg)
     end, stored c value w).
Proof.
  unfold EasyTierManager.forwarded_ports_setter, EasyTierManager._save,
    save_error, stored, bind, put_config, persist, ret.
  cbn [EasyTierConfig.auto_save EasyTierConfig.set_forwarded_ports
       EasyTierConfig.name EasyTierConfig.forwarded_ports
       env trace with_config].
  destruct (EasyTierConfig.auto_save c); cbn [negb]; [|reflexivity].
  by destruct (save _ _ _).
Qed.

Lemma stored_config c value w :
  config (stored c value w) = Some (EasyTierConfig.set_forwarded_ports c value).
Proof.
  unfold stored.
  cbn [EasyTierConfig.auto_save EasyTierConfig.set_forwarded_ports].
  by destruct (EasyTierConfig.auto_save c).
Qed.

Lemma save_error_fails c w1 w msg :
  save_error c w1 = Some msg → env w1 = env w → ¬ saves_succeed w.
Proof.
  unfold save_error. intros Hs He Hok.
  destruct (EasyTierConfig.auto_save c); [|done].
  rewrite He, Hok in Hs. done.
Qed.

(** [create_forward] reports failure with the configuration as it was;
    it reports success, or raises the [OSError] of the unguarded save,
    with the port appended in memory. *)
Lemma create_forward_cases port w :
  ∃ r w',
    Socat.create_forward port w = (r, w') ∧
    match r with
    | Ok (false, _) => config w' = config w
    | Ok (true, _) | Raise (OSError _) =>
        ∃ cfg, config w = Some cfg ∧
          (port ∉ EasyTierConfig.forwarded_ports cfg) ∧
          config w'
          = Some (EasyTierConfig.set_forwarded_ports cfg
                    (EasyTierConfig.forwarded_ports cfg ++ [port]))
    | Raise _ => False
    end ∧
    (∀ e, r = Raise e → ¬ saves_succeed w).
Proof.
  unfold Socat.create_forward.
  rewrite (bind_ok _ _ _ _ _ (get_config_spec w)).
  destruct (config w) as [cfg|] eqn:Hcfg; [|by eexists _, _].
  destruct (bool_decide (port ∈ _)) eqn:Hin; [by eexists _, _|].
  apply bool_decide_eq_false in Hin.
  destruct (Socat.configured_ip _) as [remote_ip|]; [|by eexists _, _].
  destruct (start_forward_spec port remote_ip port w)
    as (success & msg & w1 & Hstart & Hc1).
  pose proof (keeps_env_start_forward port remote_ip port w) as He1.
  rewrite Hstart in He1. cbn [snd] in He1.
  rewrite (bind_ok _ _ _ _ _ Hstart).
  destruct success; cbn [negb];
    [|eexists _, _; split; [done|split; [congruence|done]]].
  unfold EasyTierManager.add_port. rewrite bool_decide_eq_false_2 by done.
  cbn [negb]. unfold bind at 1. rewrite setter_spec.
  destruct (save_error _ w1) eqn:Hsave; eexists _, _;
    (split; [reflexivity|]);
    (split; [exists cfg; by rewrite stored_config|]); [|done].
  intros _ _. by eapply save_error_fails.
Qed.

(** [remove_forward] likewise, with the first occurrence of the port
    taken out. *)
Lemma remove_forward_cases port w :
  ∃ r w',
    Socat.remove_forward port w = (r, w') ∧
    match r with
    | Ok (false, _) => config w' = config w
    | Ok (true, _) | Raise (OSError _) =>
        ∃ cfg, config w = Some cfg ∧
          port ∈ EasyTierConfig.forwarded_ports cfg ∧
          config w'
          = Some (EasyTierConfig.set_forwarded_ports cfg
                    (EasyTierManager.list_remove port
                       (EasyTierConfig.forwarded_ports cfg)))
    | Raise _ => False
    end ∧
    (∀ e, r = Raise e → ¬ saves_succeed w).
Proof.
  unfold Socat.remove_forward.
  rewrite (bind_ok _ _ _ _ _ (get_config_spec w)).
  destruct (config w) as [cfg|] eqn:Hcfg; [|by eexists _, _].
  destruct (bool_decide (port ∈ _)) eqn:Hin; cbn [negb];
    [|by eexists _, _].
  apply bool_decide_eq_true in Hin.
  destruct (stop_forward_spec port w) as (success & msg & w1 & Hstop & Hc1).
  pose proof (keeps_env_stop_forward port w) as He1.
  rewrite Hstop in He1. cbn [snd] in He1.
  rewrite (bind_ok _ _ _ _ _ Hstop).
  destruct success; cbn [negb];
    [|eexists _, _; split; [done|split; [congruence|done]]].
  unfold EasyTierManager.remove_port. rewrite bool_decide_eq_true_2 by done.
  unfold bind at 1. rewrite setter_spec.
  destruct (save_error _ w1) eqn:Hsave; eexists _, _;
    (split; [reflexivity|]);
    (split; [exists cfg; by rewrite stored_config|]); [|done].
  intros _ _. by eapply save_error_fails.
Qed.

Lemma list_remove_not_in port (l : list Z) :
  NoDup l → port ∉ EasyTierManager.list_remove port l.
Proof.
  induction 1 as [|y l Hy Hnd IH]; simpl; [apply not_elem_of_nil|].
  destruct (bool_decide (port = y)) eqn:He.
  - apply bool_decide_eq_true in He as ->. done.
  - apply bool_decide_eq_false in He. rewrite not_elem_of_cons. done.
Qed.

Lemma count_absent port (l : list Z) :
  port ∉ l → filter (λ p, p = port) l = [].
Proof.
  induction l as [|y l IH]; [done|].
  intros [Hne Hl]%not_elem_of_cons.
  rewrite filter_cons_False by congruence. by apply IH.
Qed.

Lemma count_once port (l : list Z) :
  NoDup l → port ∈ l → length (filter (λ p, p = port) l) = 1%nat.
Proof.
  induction 1 as [|y l Hy Hnd IH]; [by intros ?%elem_of_nil|].
  intros [->|Hin]%elem_of_cons.
  - rewrite filter_cons_True by done. by rewrite count_absent.
  - rewrite filter_cons_False; [by apply IH|]. by intros ->.
Qed.

(** C6. For every tunnel configuration and port: [create_forward] on a
    port already in the forwarded list returns the already-forwarded
    outcome without raising and changes nothing, so a list without
    duplicates keeps exactly one entry for the port; [remove_forward] on a
    port not in the list returns the not-forwarded outcome and changes
    nothing; and after a [create_forward] that succeeded, a second one for
    the same port is refused and the list holds the port exactly once. *)
Theorem forward_conflicts_change_nothing port w cfg :
  config w = Some cfg →
  (port ∈ EasyTierConfig.forwarded_ports cfg →
   Socat.create_forward port w
   = (Ok (false, "Port " +:+ Py.str_of_int port
                 +:+ " already in forwarded list"), w) ∧
   (NoDup (EasyTierConfig.forwarded_ports cfg) →
    length (filter (λ p, p = port) (EasyTierConfig.forwarded_ports cfg))
    = 1%nat)) ∧
  (port ∉ EasyTierConfig.forwarded_ports cfg →
   Socat.remove_forward port w
   = (Ok (false, "Port " +:+ Py.str_of_int port
                 +:+ " is not in forwarded list"), w)) ∧
  (∀ msg, run (Socat.create_forward port) w = Ok (true, msg) →
     let w1 := exec (Socat.create_forward port) w in
     Socat.create_forward port w1
     = (Ok (false, "Port " +:+ Py.str_of_int port
                   +:+ " already in forwarded list"), w1) ∧
     ∃ cfg1, config w1 = Some cfg1 ∧
       length (filter (λ p, p = port) (EasyTierConfig.forwarded_ports cfg1))
       = 1%nat).
Proof.
  intros Hcfg.
  assert (Hpresent : ∀ w0 cfg0, config w0 = Some cfg0 →
            port ∈ EasyTierConfig.forwarded_ports cfg0 →
            Socat.create_forward port w0
            = (Ok (false, "Port " +:+ Py.str_of_int port
                          +:+ " already in forwarded list"), w0)).
  { intros w0 cfg0 Hc Hin. unfold Socat.create_forward.
    rewrite (bind_ok _ _ _ _ _ (get_config_spec w0)), Hc.
    by rewrite bool_decide_eq_true_2. }
  split_and!.
  - intros Hin. split; [by eapply Hpresent|]. intros Hnd. by apply count_once.
  - intros Hin. unfold Socat.remove_forward.
    rewrite (bind_ok _ _ _ _ _ (get_config_spec w)), Hcfg.
    by rewrite bool_decide_eq_false_2.
  - intros msg Hrun w1. subst w1.
    destruct (create_forward_cases port w) as (r & w1 & Hc & Hcase & _).
    unfold run in Hrun. unfold exec. rewrite Hc in *. cbn [fst snd] in *.
    subst r. destruct Hcase as (cfg0 & Hcfg0 & Hnin & Hc1).
    split.
    + eapply Hpresent; [exact Hc1|]. cbn. apply elem_of_app. right.
      by apply list_elem_of_singleton.
    + eexists. split; [exact Hc1|]. cbn.
      rewrite filter_app, count_absent by done.
      by rewrite filter_cons_True.
Qed.

(** C9. For every port in the forwarded list: when no process listens on
    the port, [stop_forward] reports success without killing anything, and
    [remove_forward] takes the port out of the list held in memory (its
    first occurrence; no occurrence is left when the list had no
    duplicates), rewrites the tunnel document when [_auto_save] is on, and
    succeeds; it fails to do so only if that rewrite fails, whose
    [OSError] nothing catches. *)
Theorem remove_forward_already_stopped port w cfg :
  config w = Some cfg →
  port ∈ EasyTierConfig.forwarded_ports cfg →
  run (Socat._is_port_listening port) w = Ok false →
  run (Socat.stop_forward port) w
  = Ok (true, "Port " +:+ Py.str_of_int port +:+ " is not being forwarded") ∧
  emitted (Socat.stop_forward port) w
  = [Spawn (ShellLine (netstat_cmd port)) (Some 10%Q)] ∧
  run (Socat.remove_forward port) w
  = match save_error
            (EasyTierConfig.set_forwarded_ports cfg
               (EasyTierManager.list_remove port
                  (EasyTierConfig.forwarded_ports cfg)))
            (exec (Socat.stop_forward port) w) with
    | None => Ok (true, "Port forward " +:+ Py.str_of_int port +:+ " removed")
    | Some msg => Raise (OSError msg)
    end ∧
  emitted (Socat.remove_forward port) w
  = Spawn (ShellLine (netstat_cmd port)) (Some 10%Q)
    :: (if EasyTierConfig.auto_save cfg then
          [SaveTunnel (EasyTierConfig.name cfg)
             (EasyTierManager.list_remove port
                (EasyTierConfig.forwarded_ports cfg))]
        else []) ∧
  ∃ cfg',
    config (exec (Socat.remove_forward port) w) = Some cfg' ∧
    EasyTierConfig.forwarded_ports cfg'
    = EasyTierManager.list_remove port (EasyTierConfig.forwarded_ports cfg) ∧
    (NoDup (EasyTierConfig.forwarded_ports cfg) →
     port ∉ EasyTierConfig.forwarded_ports cfg').
Proof.
  intros Hcfg Hin Hl.
  unfold run in Hl. rewrite is_port_listening_spec in Hl. injection Hl as Hl.
  assert (Hstop : Socat.stop_forward port w
                  = (Ok (true, "Port " +:+ Py.str_of_int port
                               +:+ " is not being forwarded"),
                     ran (netstat_cmd port) w)).
  { unfold Socat.stop_forward.
    rewrite (bind_ok _ _ _ _ _ (is_port_listening_spec _ _)). by rewrite Hl. }
  assert (Hrm : Socat.remove_forward port w
                = (match save_error
                           (EasyTierConfig.set_forwarded_ports cfg
                              (EasyTierManager.list_remove port
                                 (EasyTierConfig.forwarded_ports cfg)))
                           (ran (netstat_cmd port) w) with
                   | None => Ok (true, "Port forward " +:+ Py.str_of_int port
                                       +:+ " removed")
                   | Some msg => Raise (OSError msg)
                   end,
                   stored cfg
                     (EasyTierManager.list_remove port
                        (EasyTierConfig.forwarded_ports cfg))
                     (ran (netstat_cmd port) w))).
  { unfold Socat.remove_forward.
    rewrite (bind_ok _ _ _ _ _ (get_config_spec w)), Hcfg.
    rewrite bool_decide_eq_true_2 by done. cbn [negb].
    rewrite (bind_ok _ _ _ _ _ Hstop). cbn [negb].
    unfold EasyTierManager.remove_port. rewrite bool_decide_eq_true_2 by done.
    unfold bind at 1. rewrite setter_spec.
    by destruct (save_error _ _). }
  split_and!.
  - unfold run. by rewrite Hstop.
  - apply emitted_app. unfold exec. by rewrite Hstop.
  - unfold run, exec. by rewrite Hrm, Hstop.
  - apply emitted_app. unfold exec. rewrite Hrm. cbn [snd]. unfold stored.
    cbn [EasyTierConfig.auto_save EasyTierConfig.set_forwarded_ports
         EasyTierConfig.name EasyTierConfig.forwarded_ports].
    destruct (EasyTierConfig.auto_save cfg); cbn [trace log with_config].
    + unfold ran. cbn [trace log]. by rewrite <- app_assoc.
    + reflexivity.
  - unfold exec. rewrite Hrm. cbn [snd]. rewrite stored_config.
    eexists. split; [reflexivity|]. split; [reflexivity|].
    intros Hnd. cbn. by apply list_remove_not_in.
Qed.

(** C5, as the code has it.  For every port not in the forwarded list of
    a tunnel that has a remote forward address, when socat is installed
    and the live check finds the port bound, [create_forward] fails with
    the in-use outcome, naming the owning process as [_get_port_process]
    describes it or ["unknown process"] when it finds none, and the
    configuration is left as it was. *)
Theorem create_forward_port_in_use port w cfg remote_ip :
  config w = Some cfg →
  port ∉ EasyTierConfig.forwarded_ports cfg →
  Socat.configured_ip (EasyTierConfig.remote_forward_ip cfg) = Some remote_ip →
  run Socat.check_socat_installed w = Ok true →
  run (Socat._is_port_listening port) (exec Socat.check_socat_installed w)
  = Ok true →
  ∃ proc,
    run (Socat._get_port_process port)
      (exec (Socat._is_port_listening port)
         (exec Socat.check_socat_installed w)) = Ok proc ∧
    run (Socat.create_forward port) w
    = Ok (false, "Port " +:+ Py.str_of_int port +:+ " is already in use by: "
                 +:+ match proc with
                     | Some p => p
                     | None => "unknown process"
                     end) ∧
    config (exec (Socat.create_forward port) w) = Some cfg.
Proof.
  intros Hcfg Hnin Hip Hsocat Hlisten.
  unfold run, exec in *.
  rewrite check_socat_installed_spec in *. cbn [fst snd] in *.
  rewrite is_port_listening_spec in *. cbn [fst snd] in *.
  injection Hsocat as Hsocat. injection Hlisten as Hlisten.
  destruct (get_port_process_spec port
              (ran (netstat_cmd port) (ran "which socat" w)))
    as (proc & w3 & Hproc & Hc3 & Hname).
  exists proc. rewrite Hproc. split; [done|].
  assert (Hstart : Socat.start_forward port remote_ip port w
                   = (Ok (false, "Port " +:+ Py.str_of_int port
                                 +:+ " is already in use by: "
                                 +:+ Socat.proc_or_unknown proc), w3)).
  { unfold Socat.start_forward.
    rewrite (bind_ok _ _ _ _ _ (check_socat_installed_spec _)), Hsocat.
    cbn [negb].
    rewrite (bind_ok _ _ _ _ _ (is_port_listening_spec _ _)), Hlisten.
    by rewrite (bind_ok _ _ _ _ _ Hproc). }
  unfold Socat.create_forward.
  rewrite (bind_ok _ _ _ _ _ (get_config_spec w)), Hcfg.
  rewrite bool_decide_eq_false_2 by done. rewrite Hip.
  rewrite (bind_ok _ _ _ _ _ Hstart). cbn [negb fst snd].
  rewrite Hname. split; [done|]. unfold ret. cbn [snd].
  rewrite Hc3. exact Hcfg.
Qed.

(** ** The bulk helpers *)

Lemma parse_parts_result parts : ∀ ports,
  (∃ l, Socat.parse_parts parts ports = Ok l) ∨
  Socat.parse_parts parts ports = Socat.value_error.
Proof.
  induction parts as [|part parts IH]; intros ports; simpl; [by left; eexists|].
  destruct (Py.contains _ _).
  - destruct (Py.split _ _) as [|a [|b [|? ?]]]; try by right.
    destruct (Py.int a), (Py.int b); try by right. apply IH.
  - destruct (Py.int _); [apply IH|by right].
Qed.

Lemma saves_succeed_env w w' : env w' = env w → saves_succeed w' → saves_succeed w.
Proof. unfold saves_succeed. by intros ->. Qed.

Lemma create_each_spec ports : ∀ results w,
  ∃ r w',
    Socat.create_each ports results w = (r, w') ∧
    match r with
    | Ok l => ∃ msgs, l = results ++ msgs ∧ length msgs = length ports
    | Raise (OSError _) => ¬ saves_succeed w
    | Raise _ => False
    end.
Proof.
  induction ports as [|port ports IH]; intros results w;
    cbn [Socat.create_each].
  { exists (Ok results), w. split; [done|]. exists []. by rewrite app_nil_r. }
  destruct (create_forward_cases port w) as (r & w1 & Hc & Hcase & Hraise).
  pose proof (keeps_env_create_forward port w) as He1.
  rewrite Hc in He1. cbn [snd] in He1.
  destruct r as [[success msg]|e].
  - rewrite (bind_ok _ _ _ _ _ Hc). cbn [snd].
    destruct (IH (results ++ [msg]) w1) as (r & w' & -> & Hr).
    exists r, w'. split; [done|].
    destruct r as [l|[]]; try done.
    + destruct Hr as (msgs & -> & Hlen). exists (msg :: msgs).
      rewrite <- app_assoc. split; [done|]. simpl. by rewrite Hlen.
    + intros Hok. apply Hr. unfold saves_succeed. by rewrite He1.
  - rewrite (bind_raise _ _ _ _ _ Hc). eexists _, _. split; [reflexivity|].
    destruct e; try done. by apply (Hraise _ eq_refl).
Qed.

Lemma remove_each_spec ports : ∀ results w,
  is_Some (config w) →
  ∃ r w',
    Socat.remove_each ports results w = (r, w') ∧
    match r with
    | Ok l => ∃ msgs, l = results ++ msgs ∧ (length msgs ≤ length ports)%nat
    | Raise (OSError _) => ¬ saves_succeed w
    | Raise _ => False
    end.
Proof.
  induction ports as [|port ports IH]; intros results w Hsome;
    cbn [Socat.remove_each].
  { exists (Ok results), w. split; [done|]. exists []. by rewrite app_nil_r. }
  rewrite (bind_ok _ _ _ _ _ (get_config_spec w)).
  destruct Hsome as [cfg Hcfg]. rewrite Hcfg.
  destruct (bool_decide _).
  - destruct (remove_forward_cases port w) as (r & w1 & Hc & Hcase & Hraise).
    pose proof (keeps_env_remove_forward port w) as He1.
    rewrite Hc in He1. cbn [snd] in He1.
    destruct r as [[success msg]|e].
    + rewrite (bind_ok _ _ _ _ _ Hc). cbn [snd].
      assert (is_Some (config w1)) as Hsome1.
      { destruct success.
        - destruct Hcase as (? & _ & _ & ->). by eexists.
        - rewrite Hcase, Hcfg. by eexists. }
      destruct (IH (results ++ [msg]) w1 Hsome1) as (r & w' & -> & Hr).
      exists r, w'. split; [done|].
      destruct r as [l|[]]; try done.
      * destruct Hr as (msgs & -> & Hlen). exists (msg :: msgs).
        rewrite <- app_assoc. split; [done|]. simpl. lia.
      * intros Hok. apply Hr. unfold saves_succeed. by rewrite He1.
    + rewrite (bind_raise _ _ _ _ _ Hc). eexists _, _. split; [reflexivity|].
      destruct e; try done. by apply (Hraise _ eq_refl).
  - destruct (IH results w) as (r & w' & -> & Hr); [by eexists|].
    exists r, w'. split; [done|].
    destruct r as [l|[]]; try done.
    destruct Hr as (msgs & -> & Hlen). exists msgs. split; [done|].
    simpl. lia.
Qed.

(** For every ports string: when it does not parse, both bulk helpers
    return [(False, "Invalid port format")] and do nothing; when it parses,
    [add_multiple_forwards] returns [True] with one message per port,
    whatever each [create_forward] returned, and so does
    [remove_multiple_forwards] of a manager that holds a tunnel
    configuration, with at most one message per port.  Either raises only
    the [OSError] of a tunnel document that could not be saved. *)
Theorem bulk_helpers_report_success ports_str w :
  match Socat.parse_ports ports_str with
  | Ok ports =>
      match run (Socat.add_multiple_forwards ports_str) w with
      | Ok r =>
          ∃ msgs, r = (true, Py.join Py.nl msgs) ∧ length msgs = length ports
      | Raise (OSError _) => ¬ saves_succeed w
      | Raise _ => False
      end ∧
      (is_Some (config w) →
       match run (Socat.remove_multiple_forwards ports_str) w with
       | Ok r =>
           ∃ msgs, r = (true, Py.join Py.nl msgs) ∧
                   (length msgs ≤ length ports)%nat
       | Raise (OSError _) => ¬ saves_succeed w
       | Raise _ => False
       end)
  | Raise _ =>
      Socat.add_multiple_forwards ports_str w
      = (Ok (false, "Invalid port format"), w) ∧
      Socat.remove_multiple_forwards ports_str w
      = (Ok (false, "Invalid port format"), w)
  end.
Proof.
  unfold Socat.add_multiple_forwards, Socat.remove_multiple_forwards, run.
  unfold Socat.parse_ports.
  destruct (parse_parts_result (Py.split "," ports_str) []) as [[ports ->]| ->].
  - split.
    + destruct (create_each_spec ports [] w) as (r & w' & Hc & Hr).
      destruct r as [l|e].
      * rewrite (bind_ok _ _ _ _ _ Hc). cbn [fst ret].
        destruct Hr as (msgs & -> & Hlen). by exists msgs.
      * by rewrite (bind_raise _ _ _ _ _ Hc).
    + intros Hsome.
      destruct (remove_each_spec ports [] w Hsome) as (r & w' & Hc & Hr).
      destruct r as [l|e].
      * rewrite (bind_ok _ _ _ _ _ Hc). cbn [fst ret].
        destruct Hr as (msgs & -> & Hlen). by exists msgs.
      * by rewrite (bind_raise _ _ _ _ _ Hc).
  - done.
Qed.

(** ** Switching the forward mode *)

Lemma bind_assoc {A B C} (m : M A) (k1 : A → M B) (k2 : B → M C) w :
  bind (bind m k1) k2 w = bind m (λ a, bind (k1 a) k2) w.
Proof. unfold bind. by destruct (m w) as [[a|e] w']. Qed.

Lemma stop_all_socat_spec w :
  ∃ r w', Socat.stop_all_socat w = (Ok r, w') ∧
          trace w' = trace w ++ stop_socat ∧
          forward_mode w' = forward_mode w.
Proof.
  unfold Socat.stop_all_socat, Socat.stop_all_forwards.
  rewrite (bind_ok _ _ _ _ _ (run_command_spec _ _)).
  unfold sleep, bind at 1.
  rewrite (bind_ok _ _ _ _ _ (run_command_spec _ _)).
  destruct (shell_result _ _) as [[success out] err].
  destruct (success && _); eexists _, _; (split; [reflexivity|]);
    cbn [trace log ran]; rewrite <- !app_assoc; by split.
Qed.

Lemma shell_spec line w :
  ∃ r, Main.shell line w = (r, log (Spawn (ShellLine line) None) w).
Proof.
  unfold Main.shell, bind, subprocess_run, ret.
  destruct (spawn _ _ _ _); by eexists.
Qed.

Lemma restart_forward_daemon_spec w :
  ∃ r w' es,
    Main.restart_forward_daemon w = (r, w') ∧
    trace w' = trace w ++ es ∧ forward_mode w' = forward_mode w ∧
    Forall (λ e, is_stop e = false) es.
Proof.
  unfold Main.restart_forward_daemon, Main.get_forward_mode, bind at 1.
  destruct (bool_decide (forward_mode w = "haproxy")).
  - destruct (shell_spec "systemctl start haproxy" w) as ([[]|e] & Hs);
      unfold bind at 1; rewrite Hs.
    + destruct (shell_spec "systemctl restart vortexl2-forward-daemon"
                  (log (Spawn (ShellLine "systemctl start haproxy") None) w))
        as (r & ->).
      eexists _, _, _. split; [reflexivity|]. cbn [trace log forward_mode].
      rewrite <- app_assoc. split; [reflexivity|]. split; [done|].
      by repeat constructor.
    + eexists _, _, _. split; [reflexivity|]. cbn [trace log forward_mode].
      split; [reflexivity|]. split; [done|]. by repeat constructor.
  - rewrite bind_ret.
    destruct (shell_spec "systemctl restart vortexl2-forward-daemon" w)
      as (r & ->).
    eexists _, _, _. split; [reflexivity|]. cbn [trace log forward_mode].
    split; [reflexivity|]. split; [done|]. by repeat constructor.
Qed.

(** Choosing the mode already current does nothing at all, in either
    menu. *)
Lemma same_mode_is_noop mode_choice w :
  Main.new_mode_of mode_choice = Some (forward_mode w) →
  Main.handle_forwards_menu_mode mode_choice w = (Ok tt, w) ∧
  Main.handle_easytier_forwards_menu_mode mode_choice w = (Ok tt, w).
Proof.
  intros Hnew.
  unfold Main.handle_forwards_menu_mode,
    Main.handle_easytier_forwards_menu_mode, Main.get_forward_mode, bind.
  rewrite Hnew. by rewrite bool_decide_eq_true_2.
Qed.

(** In the L2TP forwards menu, a change of mode first runs the stop
    sequence of the driver of the current mode; the new mode is persisted
    only after that sequence, and no driver is stopped after it except
    HAProxy when the new mode is ["none"]. *)
Theorem forwards_menu_stops_before_persist mode_choice new_mode w :
  Main.new_mode_of mode_choice = Some new_mode →
  new_mode ≠ forward_mode w →
  ∃ rest,
    emitted (Main.handle_forwards_menu_mode mode_choice) w
    = stop_of (forward_mode w) ++ rest ∧
    (rest = [] ∨
     ∃ started,
       rest = SetForwardMode new_mode :: started ∧
       forward_mode (exec (Main.handle_forwards_menu_mode mode_choice) w)
       = new_mode ∧
       (new_mode ≠ "none" → Forall (λ e, is_stop e = false) started)).
Proof.
  intros Hnew Hne.
  assert (Hafter : ∀ w1 : World,
            forward_mode w1 = forward_mode w →
            ∃ r w' started,
              bind (Main.set_forward_mode new_mode)
                (λ _, if negb (bool_decide (new_mode = "none")) then
                        start <- confirm "Start port forwarding now?" ;;
                        if start then Main.restart_forward_daemon else ret tt
                      else Main.shell "systemctl stop haproxy") w1 = (r, w') ∧
              trace w' = trace w1 ++ SetForwardMode new_mode :: started ∧
              forward_mode w' = new_mode ∧
              (new_mode ≠ "none" → Forall (λ e, is_stop e = false) started)).
  { intros w1 Hm. unfold Main.set_forward_mode, bind at 1.
    destruct (bool_decide (new_mode = "none")) eqn:Hnone; cbn [negb].
    - destruct (shell_spec "systemctl stop haproxy"
                  (log (SetForwardMode new_mode) (with_forward_mode new_mode w1)))
        as (r & ->).
      eexists _, _, _. split; [reflexivity|]. cbn [trace log with_forward_mode forward_mode].
      rewrite <- app_assoc. split; [reflexivity|]. split; [done|].
      apply bool_decide_eq_true in Hnone. done.
    - unfold confirm, bind at 1.
      destruct (answer _ _ _).
      + destruct (restart_forward_daemon_spec
                    (log (Confirm "Start port forwarding now?")
                       (log (SetForwardMode new_mode)
                          (with_forward_mode new_mode w1))))
          as (r & w' & es & -> & Ht & Hm' & Hes).
        eexists _, _, _. split; [reflexivity|]. rewrite Ht, Hm'.
        cbn [trace log with_forward_mode forward_mode].
        rewrite <- !app_assoc. split; [reflexivity|]. split; [done|].
        intros _. by constructor.
      + eexists _, _, _. split; [reflexivity|].
        cbn [trace log with_forward_mode forward_mode].
        rewrite <- !app_assoc. split; [reflexivity|]. split; [done|].
        intros _. by repeat constructor. }
  assert (Hrun : ∃ r w' rest,
            Main.handle_forwards_menu_mode mode_choice w = (r, w') ∧
            trace w' = trace w ++ stop_of (forward_mode w) ++ rest ∧
            (rest = [] ∨
             ∃ started,
               rest = SetForwardMode new_mode :: started ∧
               forward_mode w' = new_mode ∧
               (new_mode ≠ "none" →
                Forall (λ e, is_stop e = false) started))).
  { unfold Main.handle_forwards_menu_mode, Main.get_forward_mode.
    unfold bind at 1. rewrite Hnew.
    rewrite bool_decide_eq_false_2 by done. cbn [negb].
    unfold stop_of, stop_haproxy.
    destruct (bool_decide (forward_mode w = "haproxy")).
    - unfold bind at 1.
      destruct (shell_spec "systemctl stop haproxy" w) as ([[]|e] & ->).
      + destruct (Hafter (log (Spawn (ShellLine "systemctl stop haproxy") None) w)
                    eq_refl)
          as (r & w' & started & -> & Ht & Hm & Hs).
        eexists _, _, _. split; [reflexivity|]. rewrite Ht. cbn [trace log].
        rewrite <- app_assoc. split; [reflexivity|]. right. eauto.
      + eexists _, _, []. split; [reflexivity|]. cbn [trace log].
        split; [reflexivity|]. by left.
    - destruct (bool_decide (forward_mode w = "socat")).
      + destruct (stop_all_socat_spec w) as (r & w1 & Hs & Ht1 & Hm1).
        rewrite bind_assoc, (bind_ok _ _ _ _ _ Hs), bind_ret.
        destruct (Hafter w1 Hm1) as (r' & w' & started & -> & Ht & Hm & Hst).
        eexists _, _, _. split; [reflexivity|]. rewrite Ht, Ht1.
        rewrite <- app_assoc. split; [reflexivity|]. right. eauto.
      + rewrite bind_ret.
        destruct (Hafter w eq_refl) as (r' & w' & started & -> & Ht & Hm & Hst).
        eexists _, _, _. split; [reflexivity|]. rewrite Ht.
        split; [reflexivity|]. right. eauto. }
  destruct Hrun as (r & w' & rest & Hrun & Ht & Hrest).
  unfold emitted, exec. rewrite Hrun. cbn [snd].
  rewrite Ht, drop_app_length. by exists rest.
Qed.

(** In the EasyTier forwards menu no command that stops a driver is ever
    issued: whatever the current mode, a change of mode persists the new
    one at once. *)
Theorem easytier_menu_never_stops mode_choice w :
  Forall (λ e, is_stop e = false)
    (emitted (Main.handle_easytier_forwards_menu_mode mode_choice) w) ∧
  ∀ new_mode,
    Main.new_mode_of mode_choice = Some new_mode →
    new_mode ≠ forward_mode w →
    ∃ started,
      emitted (Main.handle_easytier_forwards_menu_mode mode_choice) w
      = SetForwardMode new_mode :: started.
Proof.
  unfold emitted, exec, Main.handle_easytier_forwards_menu_mode,
    Main.get_forward_mode.
  unfold bind at 1 3.
  destruct (Main.new_mode_of mode_choice) as [new_mode|];
    [|cbn [snd ret]; rewrite drop_all; split; [constructor|done]].
  destruct (bool_decide (new_mode = forward_mode w)) eqn:Hsame; cbn [negb].
  { cbn [snd ret]. rewrite drop_all. split; [constructor|].
    intros ? [= <-] Hne. by apply bool_decide_eq_true in Hsame. }
  unfold Main.set_forward_mode, bind at 1 2.
  destruct (bool_decide (new_mode = "none")); cbn [negb].
  - cbn [snd ret trace log with_forward_mode]. rewrite drop_app_length.
    split; [by repeat constructor|]. intros ? [= <-] _. by eexists.
  - destruct (restart_forward_daemon_spec
                (log (SetForwardMode new_mode) (with_forward_mode new_mode w)))
      as (r & w' & es & -> & Ht & _ & Hes).
    cbn [snd]. rewrite Ht. cbn [trace log with_forward_mode].
    rewrite <- app_assoc, drop_app_length.
    split; [by constructor|]. intros ? [= <-] _. by eexists.
Qed.

(** ** Instances *)

(** The scenario of the specification: a duplicated candidate is kept
    once. *)
Example normalize_duplicate :
  Dns.normalize_dns_list [("A", "1.1.1.1"); ("A", "1.1.1.1")]
  = [("A", "1.1.1.1")].
Proof. vm_compute. reflexivity. Qed.

(** An instance of C1: on [scan_host] the best candidate is 1.1.1.1, which
    ties with 8.8.8.8 and was scanned first. *)
Lemma scan_selects_least_score_earliest_witness :
  ∃ best pre post success detail,
    scan_results = pre ++ best :: post ∧
    (∀ r, r ∈ pre → (Dns.score best < Dns.score r)%Q) ∧
    (∀ r, r ∈ post → (Dns.score best <= Dns.score r)%Q) ∧
    run (Dns.apply_dns (Dns.ip best))
      (exec (Dns.scan None (Dns.normalize_dns_list Dns.RAW_DNS_LIST) [])
         (exec (Dns.has_cmd "nslookup") scan_host))
    = Ok (success, detail) ∧
    run (Dns.scan_and_apply_best_dns None) scan_host
    = if success then
        match run (Dns.save_dns_config (Dns.ip best) (Dns.name best))
                (exec (Dns.apply_dns (Dns.ip best))
                   (exec (Dns.scan None
                            (Dns.normalize_dns_list Dns.RAW_DNS_LIST) [])
                      (exec (Dns.has_cmd "nslookup") scan_host))) with
        | Ok _ =>
            Ok (true,
                "Best DNS: " +:+ Dns.name best +:+ " (" +:+ Dns.ip best
                +:+ ") - Score: " +:+ Py.str_of_float1 (Dns.score best)
                +:+ "ms" +:+ Py.nl +:+ detail,
                Some best)
        | Raise e => Raise e
        end
      else
        Ok (false, "Found best DNS but failed to apply: " +:+ detail,
            Some best).
Proof.
  apply (scan_selects_least_score_earliest None scan_host scan_results);
    vm_compute; reflexivity.
Defined.


(** An instance of C3: 10.0.0.1 does not answer the primary domain. *)
Lemma score_dns_short_circuit_witness :
  run (Dns.score_dns "10.0.0.1") scan_host = Ok None ∧
  nslookup_cmd Dns.TEST_DOMAIN_2 "10.0.0.1"
  ∉ emitted (Dns.score_dns "10.0.0.1") scan_host.
Proof.
  destruct (score_dns_short_circuit "10.0.0.1" scan_host) as [H _].
  destruct H as (Hnone & _ & _ & Hnot); [vm_compute; reflexivity|].
  exact (conj Hnone Hnot).
Defined.

(** The counterexample to C5 as stated: nginx listens on port 8080, which
    is not forwarded, yet [create_forward] does not report the conflict:
    without socat it reports that socat is missing, and without a remote
    forward address it reports that, before the port is ever checked. *)
Lemma create_forward_conflict_not_reported :
  run (Socat._is_port_listening 8080) host_without_socat = Ok true ∧
  run (Socat.create_forward 8080) host_without_socat
  = Ok (false, "socat is not installed. Install with: apt-get install socat") ∧
  run (Socat._is_port_listening 8080) host_without_remote = Ok true ∧
  run (Socat.create_forward 8080) host_without_remote
  = Ok (false, "Remote forward IP not configured for this tunnel").
Proof. vm_compute. repeat split; reflexivity. Qed.

(** An instance of C5: on [busy_host] the conflict names nginx. *)
Lemma create_forward_port_in_use_witness :
  run (Socat.create_forward 8080) busy_host
  = Ok (false, "Port 8080 is already in use by: nginx (PID: 1234)") ∧
  config (exec (Socat.create_forward 8080) busy_host) = Some sample_tunnel.
Proof.
  destruct (create_forward_port_in_use 8080 busy_host sample_tunnel
              "10.155.155.2") as (proc & Hproc & Hrun & Hcfg);
    [reflexivity| |reflexivity|vm_compute; reflexivity|vm_compute; reflexivity|].
  { vm_compute. intros Hin. by repeat (apply elem_of_cons in Hin as [?|Hin]);
      try apply elem_of_nil in Hin. }
  vm_compute in Hproc. injection Hproc as <-.
  split; [|exact Hcfg]. rewrite Hrun. vm_compute. reflexivity.
Defined.

(** An instance of C6: port 80 is forwarded already, port 8080 is not. *)
Lemma forward_conflicts_change_nothing_witness :
  Socat.create_forward 80 idle_host
  = (Ok (false, "Port " +:+ Py.str_of_int 80 +:+ " already in forwarded list"),
     idle_host) ∧
  Socat.remove_forward 8080 idle_host
  = (Ok (false, "Port " +:+ Py.str_of_int 8080
                +:+ " is not in forwarded list"), idle_host).
Proof.
  destruct (forward_conflicts_change_nothing 80 idle_host sample_tunnel eq_refl)
    as ([Hadd _] & _ & _); [by left|].
  destruct (forward_conflicts_change_nothing 8080 idle_host sample_tunnel
              eq_refl) as (_ & Hrm & _).
  split; [exact Hadd|]. apply Hrm.
  intros Hin. by repeat (apply elem_of_cons in Hin as [?|Hin]);
    try apply elem_of_nil in Hin.
Defined.

(** An instance of C9: nothing listens on port 80 of [idle_host]. *)
Lemma remove_forward_already_stopped_witness :
  run (Socat.remove_forward 80) idle_host
  = Ok (true, "Port forward " +:+ Py.str_of_int 80 +:+ " removed") ∧
  ∃ cfg',
    config (exec (Socat.remove_forward 80) idle_host) = Some cfg' ∧
    EasyTierConfig.forwarded_ports cfg' = [443].
Proof.
  destruct (remove_forward_already_stopped 80 idle_host sample_tunnel)
    as (_ & _ & Hrun & _ & cfg' & Hcfg & Hports & _);
    [reflexivity|by left|vm_compute; reflexivity|].
  split; [rewrite Hrun; vm_compute; reflexivity|].
  exists cfg'. split; [exact Hcfg|]. exact Hports.
Defined.

(** C4, the EasyTier menu at the failing input.  With socat forwarders
    live (mode ["socat"]), choosing mode 1 (none) in the EasyTier forwards
    menu only persists the new mode: no command stops the socat processes.
    The L2TP menu, at the same input, kills them before persisting. *)
Theorem easytier_menu_leaves_socat_running :
  forward_mode idle_host = "socat" ∧
  Main.new_mode_of "1" = Some "none" ∧
  Main.handle_easytier_forwards_menu_mode "1" idle_host
  = (Ok tt, log (SetForwardMode "none") (with_forward_mode "none" idle_host)) ∧
  emitted (Main.handle_easytier_forwards_menu_mode "1") idle_host
  = [SetForwardMode "none"] ∧
  emitted (Main.handle_forwards_menu_mode "1") idle_host
  = stop_socat ++ [SetForwardMode "none"; stop_haproxy].
Proof. vm_compute. repeat split; reflexivity. Qed.

(** C10 at the failing input.  The string ["8080"] parses; a manager built
    without a configuration gets an [AttributeError] from
    [remove_multiple_forwards], where [add_multiple_forwards] returns
    [True] with the message of [create_forward]. *)
Theorem remove_multiple_forwards_without_config :
  Socat.parse_ports "8080" = Ok [8080] ∧
  config unconfigured_host = None ∧
  run (Socat.remove_multiple_forwards "8080") unconfigured_host
  = Raise (AttributeError
             "'NoneType' object has no attribute 'forwarded_ports'") ∧
  run (Socat.add_multiple_forwards "8080") unconfigured_host
  = Ok (true, "No tunnel configuration provided").
Proof. vm_compute. repeat split; reflexivity. Qed.

(** ** Further properties of the socat driver *)




Lemma list_remove_last port (l : list Z) :
  port ∉ l → EasyTierManager.list_remove port (l ++ [port]) = l.
Proof.
  induction l as [|y l IH]; simpl.
  - by rewrite bool_decide_eq_true_2.
  - intros [Hne Hl]%not_elem_of_cons.
    rewrite bool_decide_eq_false_2 by done. by rewrite IH.
Qed.

(** [add_port] of a port that is absent appends it to the list of the
    object, [remove_port] of that port then gives the object back as it
    was; each of the two steps rewrites the document exactly when
    [_auto_save] is on, after the list has been changed, and returns unless
    that rewrite fails, whose [OSError] it lets through; [add_port] of a
    port that is present, like [remove_port] of one that is absent, changes
    and writes nothing. *)
Theorem add_port_remove_port_round_trip c port w :
  (port ∉ EasyTierConfig.forwarded_ports c →
   let c1 :=
     EasyTierConfig.set_forwarded_ports c
       (EasyTierConfig.forwarded_ports c ++ [port]) in
   let w1 := exec (EasyTierManager.add_port c port) w in
   let w2 := exec (EasyTierManager.remove_port c1 port) w1 in
   config w1 = Some c1 ∧
   run (EasyTierManager.add_port c port) w
   = match save_error c1 w with
     | None => Ok tt
     | Some msg => Raise (OSError msg)
     end ∧
   emitted (EasyTierManager.add_port c port) w
   = (if EasyTierConfig.auto_save c
      then [SaveTunnel (EasyTierConfig.name c)
              (EasyTierConfig.forwarded_ports c ++ [port])]
      else []) ∧
   config w2 = Some c ∧
   run (EasyTierManager.remove_port c1 port) w1
   = match save_error c w1 with
     | None => Ok tt
     | Some msg => Raise (OSError msg)
     end ∧
   emitted (EasyTierManager.remove_port c1 port) w1
   = (if EasyTierConfig.auto_save c
      then [SaveTunnel (EasyTierConfig.name c)
              (EasyTierConfig.forwarded_ports c)]
      else []) ∧
   EasyTierManager.remove_port c port w2 = (Ok tt, w2)) ∧
  (port ∈ EasyTierConfig.forwarded_ports c →
   EasyTierManager.add_port c port w = (Ok tt, w)).
Proof.
  split.
  - intros Hnin c1 w1 w2.
    assert (Hadd : EasyTierManager.add_port c port w
                   = (match save_error c1 w with
                      | None => Ok tt
                      | Some msg => Raise (OSError msg)
                      end,
                      stored c (EasyTierConfig.forwarded_ports c ++ [port]) w)).
    { unfold EasyTierManager.add_port.
      rewrite bool_decide_eq_false_2 by done. cbn [negb].
      by rewrite setter_spec. }
    assert (Hback : EasyTierConfig.set_forwarded_ports c1
                      (EasyTierManager.list_remove port
                         (EasyTierConfig.forwarded_ports c1)) = c).
    { subst c1. cbn [EasyTierConfig.forwarded_ports
                     EasyTierConfig.set_forwarded_ports].
      rewrite list_remove_last by done. by destruct c. }
    assert (Hrm : EasyTierManager.remove_port c1 port w1
                  = (match save_error c w1 with
                     | None => Ok tt
                     | Some msg => Raise (OSError msg)
                     end,
                     stored c1
                       (EasyTierManager.list_remove port
                          (EasyTierConfig.forwarded_ports c1)) w1)).
    { unfold EasyTierManager.remove_port.
      rewrite bool_decide_eq_true_2
        by (apply elem_of_app; right; by apply list_elem_of_singleton).
      by rewrite setter_spec, Hback. }
    assert (Hw1 : w1 = stored c (EasyTierConfig.forwarded_ports c ++ [port]) w).
    { subst w1. unfold exec. by rewrite Hadd. }
    assert (Hw2 : w2 = stored c1
                         (EasyTierManager.list_remove port
                            (EasyTierConfig.forwarded_ports c1)) w1).
    { subst w2. unfold exec. by rewrite Hrm. }
    split_and!.
    + by rewrite Hw1, stored_config.
    + unfold run. by rewrite Hadd.
    + apply emitted_app. fold w1. rewrite Hw1. unfold stored.
      cbn [EasyTierConfig.auto_save EasyTierConfig.set_forwarded_ports
           EasyTierConfig.name EasyTierConfig.forwarded_ports].
      destruct (EasyTierConfig.auto_save c); cbn [trace log with_config];
        [done|by rewrite app_nil_r].
    + by rewrite Hw2, stored_config, Hback.
    + unfold run. by rewrite Hrm.
    + apply emitted_app. fold w2. rewrite Hw2. unfold stored. rewrite Hback.
      subst c1.
      cbn [EasyTierConfig.auto_save EasyTierConfig.set_forwarded_ports
           EasyTierConfig.name EasyTierConfig.forwarded_ports].
      destruct (EasyTierConfig.auto_save c); cbn [trace log with_config];
        [done|by rewrite app_nil_r].
    + unfold EasyTierManager.remove_port.
      by rewrite bool_decide_eq_false_2.
  - intros Hin. unfold EasyTierManager.add_port.
    by rewrite bool_decide_eq_true_2.
Qed.

(** [start_forward] reports success exactly when socat is installed, the
    port is free at the first live check, the shell accepts the socat
    command line, and the live check made half a second later finds the
    port listening. *)
Theorem start_forward_success_is_verified local_port remote_ip remote_port w :
  let w1 := ran "which socat" w in
  let w2 := ran (netstat_cmd local_port) w1 in
  let w3 := log (Sleep 0.5%Q) (ran (socat_cmd local_port remote_ip remote_port) w2) in
  (∃ msg, run (Socat.start_forward local_port remote_ip remote_port) w
          = Ok (true, msg)) ↔
  (shell_result "which socat" w).1.1 = true ∧
  listening local_port w1 = false ∧
  (shell_result (socat_cmd local_port remote_ip remote_port) w2).1.1 = true ∧
  listening local_port w3 = true.
Proof.
  intros w1 w2 w3. subst w1 w2 w3.
  unfold run, Socat.start_forward.
  rewrite (bind_ok _ _ _ _ _ (check_socat_installed_spec _)).
  destruct ((shell_result "which socat" w).1.1); cbn [negb];
    [|split; [by intros [? [=]]|by intros ([=] & _)]].
  rewrite (bind_ok _ _ _ _ _ (is_port_listening_spec _ _)).
  destruct (listening local_port (ran "which socat" w)).
  { destruct (get_port_process_spec local_port
                (ran (netstat_cmd local_port) (ran "which socat" w)))
      as (proc & w' & Hp & _ & _).
    rewrite (bind_ok _ _ _ _ _ Hp).
    split; [by intros [? [=]]|by intros (_ & [=] & _)]. }
  fold (socat_cmd local_port remote_ip remote_port).
  rewrite (bind_ok _ _ _ _ _ (run_command_spec _ _)).
  destruct (shell_result (socat_cmd _ _ _) _) as [[success out] err].
  destruct success; cbn [negb fst];
    [|split; [by intros [? [=]]|by intros (_ & _ & [=] & _)]].
  unfold sleep, bind at 1.
  rewrite (bind_ok _ _ _ _ _ (is_port_listening_spec _ _)).
  destruct (listening _ _).
  - split; [done|]. intros _. by eexists.
  - split; [by intros [? [=]]|by intros (_ & _ & _ & [=])].
Qed.

Lemma start_ports_spec remote_ip ports : ∀ count errors w,
  ∃ count' errors' w',
    Socat.start_ports remote_ip ports (count, errors) w
    = (Ok (count', errors'), w') ∧
    count ≤ count' ∧
    count' + Z.of_nat (length errors')
    = count + Z.of_nat (length errors) + Z.of_nat (length ports) ∧
    config w' = config w.
Proof.
  induction ports as [|port ports IH]; intros count errors w; simpl.
  { eexists _, _, _. split; [reflexivity|]. split_and!; [lia..|done]. }
  destruct (start_forward_spec port remote_ip port w)
    as (success & msg & w1 & Hs & Hc).
  rewrite (bind_ok _ _ _ _ _ Hs).
  destruct success.
  - destruct (IH (count + 1) errors w1) as (c' & e' & w' & -> & Hle & Hsum & Hc').
    eexists _, _, _. split; [reflexivity|]. split_and!; [lia..|congruence].
  - destruct (IH count (errors ++ [Py.str_of_int port +:+ ": " +:+ msg]) w1)
      as (c' & e' & w' & -> & Hle & Hsum & Hc').
    eexists _, _, _. split; [reflexivity|].
    rewrite length_app in Hsum. simpl in Hsum.
    split_and!; [lia..|congruence].
Qed.

Lemma start_tunnels_spec tunnels : ∀ count errors w,
  ∃ count' errors' w',
    Socat.start_tunnels tunnels (count, errors) w
    = (Ok (count', errors'), w') ∧
    count ≤ count' ∧
    count' + Z.of_nat (length errors')
    = count + Z.of_nat (length errors)
      + Z.of_nat (length (forwardable_ports tunnels)) ∧
    config w' = config w.
Proof.
  induction tunnels as [|t tunnels IH]; intros count errors w;
    cbn [Socat.start_tunnels forwardable_ports map concat].
  { eexists _, _, _. split; [reflexivity|]. split_and!; [simpl; lia..|done]. }
  fold (forwardable_ports tunnels).
  destruct (Socat.configured_ip _) as [remote_ip|].
  - destruct (start_ports_spec remote_ip (EasyTierConfig.forwarded_ports t)
                count errors w) as (c1 & e1 & w1 & Hs & Hle1 & Hsum1 & Hc1).
    rewrite (bind_ok _ _ _ _ _ Hs).
    destruct (IH c1 e1 w1) as (c' & e' & w' & -> & Hle & Hsum & Hc').
    eexists _, _, _. split; [reflexivity|]. rewrite length_app.
    split_and!; [lia..|congruence].
  - destruct (IH count errors w) as (c' & e' & w' & -> & Hle & Hsum & Hc').
    eexists _, _, _. split; [reflexivity|]. split_and!; [simpl; lia..|done].
Qed.

(** [start_all_forwards] never raises and never stops half way: every
    port of every tunnel that has a remote forward address is counted
    either as started or as an error; the outcome is [True] exactly when
    there is no error; the tunnel configuration is not touched. *)
Theorem start_all_forwards_accounts_for_every_port tunnels w :
  ∃ count errors,
    run (Socat.start_tunnels tunnels (0, [])) w = Ok (count, errors) ∧
    0 ≤ count ∧
    count + Z.of_nat (length errors)
    = Z.of_nat (length (forwardable_ports tunnels)) ∧
    (∃ msg, run (Socat.start_all_forwards tunnels) w
            = Ok (bool_decide (errors = []), msg)) ∧
    config (exec (Socat.start_all_forwards tunnels) w) = config w.
Proof.
  destruct (start_tunnels_spec tunnels 0 [] w)
    as (count & errors & w' & Hs & Hle & Hsum & Hc).
  exists count, errors. unfold run, exec, Socat.start_all_forwards.
  rewrite (bind_ok _ _ _ _ _ Hs), Hs. cbn [fst].
  split_and!; [done|done|simpl in Hsum; lia| |];
    destruct errors; cbn; eauto.
Qed.




(** ** What the scan does to the host *)

Section Frame.

Context (P : Event → Prop).











End Frame.










(** ** Further properties of the scan *)

(** [normalize_dns_list] loses no valid address: the stripped address of
    every entry of the raw list that is neither empty nor ["0.0.0.0"] is
    among the addresses kept. *)
Theorem normalize_dns_list_keeps_every_valid_address raw name ip :
  (name, ip) ∈ raw →
  Py.strip ip ≠ "0.0.0.0" →
  Py.strip ip ≠ "" →
  Py.strip ip ∈ (Dns.normalize_dns_list raw).*2.
Proof.
  intros Hin H0 He. unfold Dns.normalize_dns_list.
  pose proof (normalize_inv_fold raw [] (∅, []) normalize_inv_init) as Hinv.
  destruct (fold_left Dns.normalize_step raw (∅, [])) as [seen out].
  destruct Hinv as (Hseen & _ & Hread & _). cbn [snd].
  destruct (Hread (name, ip) Hin) as [?|[?|Hs]]; [done|done|].
  by apply Hseen.
Qed.

(** An instance: a padded address after an entry that is dropped. *)
Lemma normalize_dns_list_keeps_every_valid_address_witness :
  Py.strip " 1.1.1.1 "
  ∈ (Dns.normalize_dns_list [("none", "0.0.0.0"); ("A", " 1.1.1.1 ")]).*2.
Proof.
  apply (normalize_dns_list_keeps_every_valid_address
           [("none", "0.0.0.0"); ("A", " 1.1.1.1 ")] "A" " 1.1.1.1 ").
  - apply list_elem_of_further, list_elem_of_here.
  - vm_compute. discriminate.
  - vm_compute. discriminate.
Defined.

Lemma score_dns_formula dns_ip w score lat1 lat2 w' :
  Dns.score_dns dns_ip w = (Ok (Some (score, lat1, lat2)), w') →
  score
  = Py.round1 (Py.fdiv (Py.fadd (Py.binary64 lat1) (Py.binary64 lat2)) 2.0).
Proof.
  unfold Dns.score_dns.
  rewrite (bind_ok _ _ _ _ _ (nslookup_latency_ms_spec _ _ _)).
  destruct (mean_rounded _) as [l1|]; [|discriminate].
  rewrite (bind_ok _ _ _ _ _ (nslookup_latency_ms_spec _ _ _)).
  destruct (mean_rounded _) as [l2|]; [|discriminate].
  unfold ret. by intros [= <- <- <- _].
Qed.

Lemma scan_extends callback dns_list : ∀ acc w results w',
  Dns.scan callback dns_list acc w = (Ok results, w') →
  ∃ new,
    results = acc ++ new ∧
    sublist (candidate_of <$> new) dns_list ∧
    Forall (λ r, Dns.score r
                 = Py.round1
                   (Py.fdiv
                      (Py.fadd (Py.binary64 (Dns.latency1 r))
                         (Py.binary64 (Dns.latency2 r))) 2.0)) new.
Proof.
  induction dns_list as [|[name ip] dns_list IH]; intros acc w results w';
    cbn [Dns.scan].
  { intros [= <- _]. exists []. by rewrite app_nil_r. }
  unfold bind at 1.
  destruct (Dns.score_dns ip w) as [[s|e] w1] eqn:Hscore; [|discriminate].
  destruct s as [[[score lat1] lat2]|].
  - unfold bind at 1.
    set (report := match callback with
                   | Some cb => cb name ip "ok" (Some score)
                   | None => ret tt
                   end).
    destruct (report w1) as [[[]|e] w2]; [|discriminate].
    intros Hscan. destruct (IH _ _ _ _ Hscan) as (new & -> & Hsub & Hall).
    eexists (_ :: new). rewrite <- app_assoc. split; [reflexivity|].
    split.
    + rewrite fmap_cons. by apply sublist_skip.
    + constructor; [|done]. cbn. by eapply score_dns_formula.
  - unfold bind at 1.
    set (report := match callback with
                   | Some cb => cb name ip "fail" None
                   | None => ret tt
                   end).
    destruct (report w1) as [[[]|e] w2]; [|discriminate].
    intros Hscan. destruct (IH _ _ _ _ Hscan) as (new & -> & Hsub & Hall).
    exists new. split; [done|]. split; [by apply sublist_cons|done].
Qed.

(** Whatever the progress callback does, the result list of a scan that
    returns holds candidates of the list scanned, in its order, each at
    most once per entry; the score of each is the mean of its two
    latencies, as binary64 arithmetic gives it, rounded to one decimal;
    and when the addresses scanned are
    distinct, so are those of the results. *)
Theorem scan_results_follow_candidates callback dns_list w results :
  run (Dns.scan callback dns_list []) w = Ok results →
  sublist (candidate_of <$> results) dns_list ∧
  Forall (λ r, Dns.score r
               = Py.round1
                   (Py.fdiv
                      (Py.fadd (Py.binary64 (Dns.latency1 r))
                         (Py.binary64 (Dns.latency2 r))) 2.0))
    results ∧
  (NoDup dns_list.*2 → NoDup (Dns.ip <$> results)).
Proof.
  unfold run. destruct (Dns.scan callback dns_list [] w) as [r w'] eqn:Hscan.
  cbn [fst]. intros ->.
  destruct (scan_extends _ _ _ _ _ _ Hscan) as (new & -> & Hsub & Hall).
  cbn [app]. split_and!; [done..|].
  intros Hnd.
  replace (Dns.ip <$> new) with ((candidate_of <$> new).*2)
    by (rewrite <- list_fmap_compose; reflexivity).
  eapply sublist_NoDup; [exact Hnd|]. by apply fmap_sublist.
Qed.

(** An instance: on [scan_host], of two candidates only 1.1.1.1 answers. *)
Lemma scan_results_follow_candidates_witness :
  sublist (candidate_of <$> [ {| Dns.score := 7.0; Dns.name := "Cloudflare";
                                 Dns.ip := "1.1.1.1"; Dns.latency1 := 7.0;
                                 Dns.latency2 := 7.0 |} ])
    [("Quad9", "9.9.9.9"); ("Cloudflare", "1.1.1.1")] ∧
  Forall (λ r, Dns.score r
               = Py.round1
                   (Py.fdiv
                      (Py.fadd (Py.binary64 (Dns.latency1 r))
                         (Py.binary64 (Dns.latency2 r))) 2.0))
    [ {| Dns.score := 7.0; Dns.name := "Cloudflare"; Dns.ip := "1.1.1.1";
         Dns.latency1 := 7.0; Dns.latency2 := 7.0 |} ] ∧
  (NoDup [("Quad9", "9.9.9.9"); ("Cloudflare", "1.1.1.1")].*2 →
   NoDup (Dns.ip <$> [ {| Dns.score := 7.0; Dns.name := "Cloudflare";
                          Dns.ip := "1.1.1.1"; Dns.latency1 := 7.0;
                          Dns.latency2 := 7.0 |} ])).
Proof.
  apply (scan_results_follow_candidates None
           [("Quad9", "9.9.9.9"); ("Cloudflare", "1.1.1.1")] scan_host).
  vm_compute. reflexivity.
Defined.

(** ** Instances of the further properties *)


(** An instance: socat is chosen while the mode is socat already. *)
Lemma same_mode_is_noop_witness :
  Main.handle_forwards_menu_mode "3" idle_host = (Ok tt, idle_host) ∧
  Main.handle_easytier_forwards_menu_mode "3" idle_host = (Ok tt, idle_host).
Proof. apply (same_mode_is_noop "3" idle_host). reflexivity. Defined.

(** An instance: HAProxy is chosen while the mode is socat. *)
Lemma forwards_menu_stops_before_persist_witness :
  ∃ rest,
    emitted (Main.handle_forwards_menu_mode "2") idle_host
    = stop_of (forward_mode idle_host) ++ rest ∧
    (rest = [] ∨
     ∃ started,
       rest = SetForwardMode "haproxy" :: started ∧
       forward_mode (exec (Main.handle_forwards_menu_mode "2") idle_host)
       = "haproxy" ∧
       ("haproxy" ≠ "none" → Forall (λ e, is_stop e = false) started)).
Proof.
  apply (forwards_menu_stops_before_persist "2" "haproxy" idle_host).
  - reflexivity.
  - vm_compute. discriminate.
Defined.

(** ** Decimal numerals *)

Lemma append_cons c (a b : string) : String c a +:+ b = String c (a +:+ b).
Proof. reflexivity. Qed.

Lemma append_nil_l (b : string) : "" +:+ b = b.
Proof. reflexivity. Qed.

Lemma append_assoc (a b c : string) : (a +:+ b) +:+ c = a +:+ b +:+ c.
Proof.
  induction a as [|x a IH]; [done|]. by rewrite !append_cons, IH.
Qed.

Lemma append_nil_r (a : string) : a +:+ "" = a.
Proof. induction a as [|x a IH]; [done|]. by rewrite append_cons, IH. Qed.

Lemma all_digits_app a b :
  all_digits (a +:+ b) = all_digits a && all_digits b.
Proof.
  induction a as [|x a IH]; [done|].
  rewrite append_cons. cbn [all_digits]. by rewrite IH, andb_assoc.
Qed.

Lemma pretty_N_char_digit d :
  (d < 10)%N →
  Py.is_digit (pretty_N_char d) = true ∧
  Py.digit_value (pretty_N_char d) = Z.of_N d.
Proof.
  intros Hd.
  assert (d = 0 ∨ d = 1 ∨ d = 2 ∨ d = 3 ∨ d = 4 ∨ d = 5 ∨ d = 6 ∨ d = 7
          ∨ d = 8 ∨ d = 9)%N as Hcases by lia.
  repeat destruct Hcases as [->|Hcases]; try subst d; by vm_compute.
Qed.

Lemma pretty_N_go_app x : ∀ s, pretty_N_go x s = pretty_N_go x "" +:+ s.
Proof.
  induction (N.lt_wf_0 x) as [x _ IH]; intros s.
  destruct (decide (x = 0)%N) as [->|Hx]; [by rewrite !pretty_N_go_0|].
  rewrite !(pretty_N_go_step x) by lia.
  assert (x `div` 10 < x)%N as Hlt by (apply N.div_lt; lia).
  rewrite (IH _ Hlt (String _ s)), (IH _ Hlt (String _ "")).
  by rewrite append_assoc.
Qed.

Lemma pretty_N_go_snoc x :
  (0 < x)%N →
  pretty_N_go x ""
  = pretty_N_go (x `div` 10) "" +:+ String (pretty_N_char (x `mod` 10)) "".
Proof. intros Hx. by rewrite pretty_N_go_step, pretty_N_go_app. Qed.

Lemma all_digits_pretty_N_go x : all_digits (pretty_N_go x "") = true.
Proof.
  induction (N.lt_wf_0 x) as [x _ IH].
  destruct (decide (x = 0)%N) as [->|Hx]; [by rewrite pretty_N_go_0|].
  rewrite pretty_N_go_snoc, all_digits_app by lia.
  rewrite IH by (apply N.div_lt; lia). cbn [all_digits andb].
  destruct (pretty_N_char_digit (x `mod` 10)) as [-> _]; [|done].
  apply N.mod_lt. lia.
Qed.

Lemma pretty_N_go_nonempty x : (0 < x)%N → pretty_N_go x "" ≠ "".
Proof.
  intros Hx. rewrite pretty_N_go_snoc by done.
  by destruct (pretty_N_go _ "").
Qed.

Lemma digits_pretty_N_go x :
  (0 < x)%N →
  ∀ prev rest,
    Py.digits 0 prev (pretty_N_go x "" +:+ rest)
    = Py.digits (Z.of_N x) true rest.
Proof.
  induction (N.lt_wf_0 x) as [x _ IH]. intros Hx prev rest.
  rewrite pretty_N_go_snoc, append_assoc by done.
  rewrite append_cons, append_nil_l.
  destruct (pretty_N_char_digit (x `mod` 10)) as [Hd Hv];
    [apply N.mod_lt; lia|].
  destruct (decide (x `div` 10 = 0)%N) as [Hz|Hnz].
  - rewrite Hz, pretty_N_go_0, append_nil_l. cbn [Py.digits]. rewrite Hd, Hv.
    f_equal. assert (x < 10)%N by (apply N.div_small_iff in Hz; lia).
    rewrite N.mod_small by done. lia.
  - assert (x `div` 10 < x)%N as Hlt by (apply N.div_lt; lia).
    assert (0 < x `div` 10)%N as Hpos by by apply N.neq_0_lt_0.
    rewrite (IH _ Hlt Hpos). cbn [Py.digits].
    rewrite Hd, Hv. f_equal.
    transitivity (Z.of_N (10 * (x `div` 10) + x `mod` 10)).
    + by rewrite N2Z.inj_add, N2Z.inj_mul.
    + f_equal. symmetry. by apply N.div_mod.
Qed.

(** The numeral [str(n)] of a natural number [n] is a non-empty string of
    digits, and reading it gives [n] back. *)
Lemma str_of_int_nonneg n :
  0 ≤ n →
  all_digits (Py.str_of_int n) = true ∧
  Py.str_of_int n ≠ "" ∧
  ∀ prev rest,
    Py.digits 0 prev (Py.str_of_int n +:+ rest) = Py.digits n true rest.
Proof.
  intros Hn. destruct n as [|p|p]; [by split_and!| |lia].
  change (Py.str_of_int (Z.pos p)) with (pretty_N_go (N.pos p) "").
  split_and!.
  - apply all_digits_pretty_N_go.
  - by apply pretty_N_go_nonempty.
  - intros prev rest. by rewrite digits_pretty_N_go.
Qed.

Lemma str_of_int_negative p :
  Py.str_of_int (Z.neg p) = "-" +:+ Py.str_of_int (Z.pos p).
Proof. reflexivity. Qed.

(** ** White space around plain text *)

Ltac byte_arith :=
  unfold plain, Py.is_digit, Py.is_space1, Py.is_space2, Py.is_space3,
    Py.is_c_space;
  cbv zeta; intros;
  repeat match goal with
         | H : _ && _ = true |- _ => apply andb_prop in H as [? ?]
         | H : (_ <=? _)%N = true |- _ => apply N.leb_le in H
         end;
  first [ apply not_true_is_false;
          repeat first [rewrite orb_true_iff | rewrite andb_true_iff];
          rewrite ?N.eqb_eq, ?N.leb_le; lia
        | apply andb_true_intro; rewrite !N.leb_le; lia ].

Lemma digit_plain c : Py.is_digit c = true → plain c = true.
Proof. byte_arith. Qed.

Lemma plain_space1 c : plain c = true → Py.is_space1 c = false.
Proof. byte_arith. Qed.

Lemma plain_space2_l c c2 : plain c = true → Py.is_space2 c c2 = false.
Proof. byte_arith. Qed.

Lemma plain_space2_r c c1 : plain c = true → Py.is_space2 c1 c = false.
Proof. byte_arith. Qed.

Lemma plain_space3_l c c2 c3 : plain c = true → Py.is_space3 c c2 c3 = false.
Proof. byte_arith. Qed.

Lemma plain_space3_r c c1 c2 : plain c = true → Py.is_space3 c1 c2 c = false.
Proof. byte_arith. Qed.

Lemma lstrip_plain s : starts_plain s = true → Py.lstrip s = s.
Proof.
  unfold Py.lstrip. destruct s as [|c1 [|c2 [|c3 s3]]]; [done|..];
    cbn [starts_plain Py.strip_front]; intros Hc;
    rewrite ?(plain_space1 _ Hc), ?(plain_space2_l _ _ Hc),
      ?(plain_space3_l _ _ _ Hc); reflexivity.
Qed.

Lemma rstrip_front_plain s :
  starts_plain s = true →
  Py.strip_front Py.is_space1 (λ c2 c1, Py.is_space2 c1 c2)
    (λ c3 c2 c1, Py.is_space3 c1 c2 c3) s = s.
Proof.
  destruct s as [|c1 [|c2 [|c3 s3]]]; [done|..];
    cbn [starts_plain Py.strip_front]; intros Hc;
    rewrite ?(plain_space1 _ Hc), ?(plain_space2_r _ _ Hc),
      ?(plain_space3_r _ _ _ Hc); reflexivity.
Qed.

Lemma rev_app_rev_app s : ∀ acc acc',
  String.rev_app (String.rev_app s acc) acc' = String.rev_app acc (s +:+ acc').
Proof.
  induction s as [|c s IH]; intros acc acc'; [done|].
  cbn [String.rev_app]. by rewrite IH.
Qed.

Lemma rev_app_append a : ∀ b acc,
  String.rev_app (a +:+ b) acc = String.rev_app b (String.rev_app a acc).
Proof.
  induction a as [|c a IH]; intros b acc; [done|].
  rewrite append_cons. cbn [String.rev_app]. by rewrite IH.
Qed.

Lemma starts_plain_rev_app b : ∀ acc,
  all_digits b = true → b ≠ "" → starts_plain (String.rev_app b acc) = true.
Proof.
  induction b as [|c b IH]; intros acc Hd Hne; [done|].
  cbn [all_digits] in Hd. apply andb_prop in Hd as [Hc Hb].
  cbn [String.rev_app]. destruct b as [|c' b'].
  - cbn. by apply digit_plain.
  - by apply IH.
Qed.

(** [strip] leaves a text alone that starts with a plain character and
    ends with a numeral. *)
Lemma strip_plain x b :
  starts_plain (x +:+ b) = true → all_digits b = true → b ≠ "" →
  Py.strip (x +:+ b) = x +:+ b.
Proof.
  intros Hstart Hd Hne. unfold Py.strip. rewrite lstrip_plain by done.
  unfold Py.rstrip. rewrite rstrip_front_plain.
  - unfold String.rev. rewrite rev_app_rev_app, append_nil_r. reflexivity.
  - unfold String.rev. rewrite rev_app_append. by apply starts_plain_rev_app.
Qed.

Lemma strip_numeral s :
  all_digits s = true → s ≠ "" → Py.strip s = s.
Proof.
  intros Hd Hne. apply (strip_plain "" s); [|done..].
  destruct s as [|c s]; [done|]. cbn in *.
  apply digit_plain. by apply andb_prop in Hd as [? _].
Qed.

Lemma plain_c_space c : plain c = true → Py.is_c_space c = false.
Proof. byte_arith. Qed.

Lemma skip_c_space_plain s : starts_plain s = true → Py.skip_c_space s = s.
Proof.
  destruct s as [|c s]; [done|]. cbn [starts_plain Py.skip_c_space].
  intros Hc. by rewrite (plain_c_space _ Hc).
Qed.

Lemma starts_plain_numeral s :
  all_digits s = true → s ≠ "" → starts_plain s = true.
Proof.
  destruct s as [|c s]; [done|]. cbn [all_digits starts_plain].
  intros [Hc _]%andb_prop _. by apply digit_plain.
Qed.

Lemma strip_c_space_numeral s :
  all_digits s = true → s ≠ "" → Py.strip_c_space s = s.
Proof.
  intros Hd Hne. unfold Py.strip_c_space.
  rewrite (skip_c_space_plain s) by by apply starts_plain_numeral.
  rewrite skip_c_space_plain by by apply starts_plain_rev_app.
  unfold String.rev. by rewrite rev_app_rev_app, append_nil_r.
Qed.

(** Digits of ASCII are read as they are. *)
Lemma transform_digits s : all_digits s = true → Py.transform s = s.
Proof.
  induction s as [|c s IH]; [done|]. cbn [all_digits Py.transform].
  intros [Hc Hs]%andb_prop. cbv zeta.
  assert (Py.code c < 127)%N as Hlt.
  { unfold Py.is_digit in Hc. apply andb_prop in Hc as [_ Hc].
    apply N.leb_le in Hc. lia. }
  rewrite (proj2 (N.ltb_lt _ 128)) by lia.
  unfold Py.to_ascii. rewrite (proj2 (N.ltb_lt _ 127)) by done.
  unfold Py.code. by rewrite ascii_N_embedding, IH.
Qed.

Lemma int_str_of_int n : 0 ≤ n → Py.int (Py.str_of_int n) = Some n.
Proof.
  intros Hn. destruct (str_of_int_nonneg n Hn) as (Hd & Hne & Hread).
  specialize (Hread false ""). rewrite append_nil_r in Hread.
  unfold Py.int. rewrite transform_digits, strip_c_space_numeral by done.
  destruct (Py.str_of_int n) as [|c r]; [done|].
  cbn [all_digits] in Hd. apply andb_prop in Hd as [Hc _].
  destruct c as [[] [] [] [] [] [] [] []]; try (by vm_compute in Hc);
    exact Hread.
Qed.

Lemma int_empty : Py.int "" = None.
Proof. reflexivity. Qed.

(** ** Splitting at a separator *)

Lemma contains_app sep a b :
  Py.contains sep (a +:+ b) = Py.contains sep a || Py.contains sep b.
Proof.
  induction a as [|c a IH]; [done|].
  rewrite append_cons. cbn [Py.contains]. by rewrite IH, orb_assoc.
Qed.

Lemma contains_digits sep s :
  Py.is_digit sep = false → all_digits s = true → Py.contains sep s = false.
Proof.
  intros Hsep. induction s as [|c s IH]; simpl; [done|].
  intros [Hc Hs]%andb_prop. rewrite IH, orb_false_r by done.
  apply Ascii.eqb_neq. intros ->. congruence.
Qed.

Lemma split_no_sep sep a : Py.contains sep a = false → Py.split sep a = [a].
Proof.
  induction a as [|c a IH]; simpl; [done|].
  intros [Hc Ha]%orb_false_elim. rewrite Ascii.eqb_sym, Hc, IH; done.
Qed.

Lemma split_app sep a b :
  Py.contains sep a = false →
  Py.split sep (a +:+ String sep b) = a :: Py.split sep b.
Proof.
  induction a as [|c a IH].
  - intros _. rewrite append_nil_l. cbn [Py.split]. by rewrite Ascii.eqb_refl.
  - cbn [Py.contains]. intros [Hc Ha]%orb_false_elim.
    rewrite append_cons. cbn [Py.split]. rewrite Ascii.eqb_sym, Hc, IH; done.
Qed.

Lemma split_join parts :
  parts ≠ [] →
  Forall (λ p, Py.contains "," p = false) parts →
  Py.split "," (Py.join "," parts) = parts.
Proof.
  induction parts as [|p parts IH]; [done|]. intros _ Hall.
  apply Forall_cons in Hall as [Hp Hparts].
  destruct parts as [|q parts].
  - cbn [Py.join]. by apply split_no_sep.
  - change (Py.join "," (p :: q :: parts))
      with (p +:+ String "," (Py.join "," (q :: parts))).
    rewrite split_app by done. by rewrite IH.
Qed.

(** ** The ports string of the bulk helpers *)

Lemma render_no_comma item :
  natural item → Py.contains "," (render item) = false.
Proof.
  destruct item as [n|a b]; cbn [natural render].
  - intros Hn. destruct (str_of_int_nonneg n Hn) as (Hd & _ & _).
    by apply contains_digits.
  - intros [Ha Hb].
    destruct (str_of_int_nonneg a Ha) as (Hda & _ & _).
    destruct (str_of_int_nonneg b Hb) as (Hdb & _ & _).
    rewrite contains_app, (contains_digits "," _ eq_refl Hda).
    change ("-" +:+ Py.str_of_int b) with (String "-" (Py.str_of_int b)).
    cbn [Py.contains orb]. rewrite (contains_digits "," _ eq_refl Hdb).
    reflexivity.
Qed.

Lemma parse_parts_render items : ∀ ports,
  Forall natural items →
  Socat.parse_parts (render <$> items) ports
  = Ok (ports ++ concat (ports_of <$> items)).
Proof.
  induction items as [|item items IH]; intros ports Hall.
  { cbn. by rewrite app_nil_r. }
  apply Forall_cons in Hall as [Hitem Hall].
  rewrite !fmap_cons. cbn [Socat.parse_parts concat]. cbv zeta.
  destruct item as [n|a b]; cbn [natural render ports_of] in *.
  - destruct (str_of_int_nonneg n Hitem) as (Hd & Hne & _).
    rewrite strip_numeral by done.
    rewrite (contains_digits "-" _ eq_refl Hd), int_str_of_int by done.
    rewrite IH by done. by rewrite <- app_assoc.
  - destruct Hitem as [Ha Hb].
    destruct (str_of_int_nonneg a Ha) as (Hda & Hnea & _).
    destruct (str_of_int_nonneg b Hb) as (Hdb & Hneb & _).
    assert (Hstrip : Py.strip (Py.str_of_int a +:+ "-" +:+ Py.str_of_int b)
                     = Py.str_of_int a +:+ "-" +:+ Py.str_of_int b).
    { rewrite <- append_assoc. apply strip_plain; [|done..].
      rewrite append_assoc.
      destruct (Py.str_of_int a) as [|c r]; [done|].
      rewrite append_cons. cbn [starts_plain]. cbn [all_digits] in Hda.
      apply digit_plain. by apply andb_prop in Hda as [? _]. }
    rewrite Hstrip.
    change ("-" +:+ Py.str_of_int b) with (String "-" (Py.str_of_int b)).
    rewrite contains_app. cbn [Py.contains]. rewrite Ascii.eqb_refl.
    rewrite orb_true_r.
    rewrite split_app by by apply contains_digits.
    rewrite split_no_sep by by apply contains_digits.
    rewrite !int_str_of_int by done.
    rewrite IH by done. by rewrite <- app_assoc.
Qed.

(** For every non-empty list of ports and ranges of natural numbers
    written the usual way, separated by commas, the bulk helpers read
    exactly those ports, in order, a range [a-b] standing for every port
    from [a] to [b] (none when [b < a]). *)
Theorem parse_ports_reads_ports_and_ranges items :
  items ≠ [] →
  Forall natural items →
  Socat.parse_ports (Py.join "," (render <$> items))
  = Ok (concat (ports_of <$> items)).
Proof.
  intros Hne Hall. unfold Socat.parse_ports.
  rewrite split_join.
  - by rewrite parse_parts_render.
  - by destruct items.
  - apply Forall_fmap. eapply Forall_impl; [exact Hall|].
    intros item Hitem. by apply render_no_comma.
Qed.

(** An instance: the string ["80,8000-8002"]. *)
Lemma parse_ports_reads_ports_and_ranges_witness :
  Socat.parse_ports (Py.join "," (render <$> [Single 80; Span 8000 8002]))
  = Ok (concat (ports_of <$> [Single 80; Span 8000 8002])).
Proof.
  apply (parse_ports_reads_ports_and_ranges [Single 80; Span 8000 8002]).
  - discriminate.
  - repeat constructor; cbn; lia.
Defined.

(** A negative port is never read: its minus sign is taken for the dash
    of a range whose first bound is missing, and both bulk helpers answer
    [(False, "Invalid port format")]. *)
Theorem parse_ports_rejects_negative n w :
  n < 0 →
  Socat.parse_ports (Py.str_of_int n) = Socat.value_error ∧
  Socat.add_multiple_forwards (Py.str_of_int n) w
  = (Ok (false, "Invalid port format"), w) ∧
  Socat.remove_multiple_forwards (Py.str_of_int n) w
  = (Ok (false, "Invalid port format"), w).
Proof.
  intros Hn. destruct n as [|p|p]; [lia..|].
  assert (Hparse : Socat.parse_ports (Py.str_of_int (Z.neg p))
                   = Socat.value_error).
  { rewrite str_of_int_negative.
    destruct (str_of_int_nonneg (Z.pos p)) as (Hd & Hne & _); [lia|].
    unfold Socat.parse_ports.
    change ("-" +:+ Py.str_of_int (Z.pos p))
      with ("" +:+ String "-" (Py.str_of_int (Z.pos p))).
    rewrite split_no_sep.
    2:{ rewrite append_nil_l. cbn [Py.contains].
        rewrite (contains_digits "," _ eq_refl Hd). reflexivity. }
    cbn [Socat.parse_parts]. cbv zeta.
    rewrite append_nil_l.
    change (String "-" (Py.str_of_int (Z.pos p)))
      with ("-" +:+ Py.str_of_int (Z.pos p)).
    rewrite strip_plain by done.
    change ("-" +:+ Py.str_of_int (Z.pos p))
      with ("" +:+ String "-" (Py.str_of_int (Z.pos p))).
    rewrite split_app by done. rewrite append_nil_l.
    cbn [Py.contains]. rewrite Ascii.eqb_refl. cbn [orb].
    rewrite split_no_sep by by apply contains_digits.
    rewrite int_empty. reflexivity. }
  unfold Socat.add_multiple_forwards, Socat.remove_multiple_forwards.
  rewrite Hparse. done.
Qed.

(** An instance: the string ["-80"]. *)
Lemma parse_ports_rejects_negative_witness :
  Socat.parse_ports (Py.str_of_int (-80)) = Socat.value_error ∧
  Socat.add_multiple_forwards (Py.str_of_int (-80)) idle_host
  = (Ok (false, "Invalid port format"), idle_host) ∧
  Socat.remove_multiple_forwards (Py.str_of_int (-80)) idle_host
  = (Ok (false, "Invalid port format"), idle_host).
Proof. apply (parse_ports_rejects_negative (-80) idle_host). lia. Defined.

(** ** The cron entry of the periodic check *)

Lemma digit_is_ascii c : Py.is_digit c = true → (Py.code c <? 128)%N = true.
Proof.
  unfold Py.is_digit. intros [_ Hc]%andb_prop.
  apply N.leb_le in Hc. apply N.ltb_lt. lia.
Qed.

Lemma take_digits_stop c rest :
  (Py.code c <? 128)%N = true → Py.is_digit c = false →
  DnsCron.take_digits (String c rest) = "".
Proof. intros Ha Hc. cbn [DnsCron.take_digits]. cbv zeta. by rewrite Ha, Hc. Qed.

Lemma take_digits_numeral p c rest :
  all_digits p = true →
  (Py.code c <? 128)%N = true → Py.is_digit c = false →
  DnsCron.take_digits (p +:+ String c rest) = p.
Proof.
  intros Hd Ha Hc. induction p as [|x p IH].
  - rewrite append_nil_l. by apply take_digits_stop.
  - cbn [all_digits] in Hd. apply andb_prop in Hd as [Hx Hd].
    rewrite append_cons. cbn [DnsCron.take_digits]. cbv zeta.
    by rewrite (digit_is_ascii _ Hx), Hx, IH.
Qed.

Lemma search_interval_skip p s :
  Py.contains "*" p = false →
  DnsCron.search_interval (p +:+ s) = DnsCron.search_interval s.
Proof.
  induction p as [|c p IH]; [done|].
  cbn [Py.contains]. intros [Hc Hp]%orb_false_elim.
  rewrite append_cons. cbn [DnsCron.search_interval].
  rewrite Ascii.eqb_sym, Hc. by apply IH.
Qed.

Lemma cron_text_parts hours :
  DnsCron.cron_text hours
  = cron_head +:+ String "*" (String "/" (Py.str_of_int hours +:+ cron_tail)).
Proof.
  unfold DnsCron.cron_text, cron_tail. cbv zeta.
  rewrite !append_assoc. reflexivity.
Qed.

Lemma search_interval_cron_text hours :
  DnsCron.search_interval (DnsCron.cron_text hours)
  = if 0 <=? hours then Some (Py.str_of_int hours) else None.
Proof.
  rewrite cron_text_parts, search_interval_skip by reflexivity.
  cbn [DnsCron.search_interval]. rewrite !Ascii.eqb_refl.
  destruct (Z.leb_spec 0 hours) as [Hh|Hh].
  - destruct (str_of_int_nonneg hours Hh) as (Hd & Hne & _).
    change cron_tail with (String " " (String.substring 1 77 cron_tail)).
    rewrite take_digits_numeral by done.
    by destruct (Py.str_of_int hours).
  - destruct hours as [|p|p]; [lia..|].
    rewrite str_of_int_negative.
    destruct (str_of_int_nonneg (Z.pos p)) as (Hd & _ & _); [lia|].
    change ("-" +:+ Py.str_of_int (Z.pos p))
      with (String "-" (Py.str_of_int (Z.pos p))).
    rewrite append_cons, take_digits_stop by reflexivity.
    change ("/" =? "*")%char with false. cbv iota.
    change (String "-" (Py.str_of_int (Z.pos p) +:+ cron_tail))
      with (String "-" (Py.str_of_int (Z.pos p)) +:+ cron_tail).
    rewrite search_interval_skip; [reflexivity|].
    cbn [Py.contains]. rewrite (contains_digits "*" _ eq_refl Hd).
    reflexivity.
Qed.

Lemma status_after_update hours d :
  DnsCron.write_error d = None →
  DnsCron.get_dns_cron_status (DnsCron.update_dns_cron hours d).2
  = (true, if 0 <=? hours then "Every " +:+ Py.str_of_int hours +:+ " hours"
           else "Enabled").
Proof.
  intros Hw. unfold DnsCron.update_dns_cron. rewrite Hw. cbn [snd].
  unfold DnsCron.get_dns_cron_status, DnsCron.with_files.
  cbn [DnsCron.files]. rewrite lookup_insert_eq.
  rewrite search_interval_cron_text. by destruct (0 <=? hours).
Qed.

(** When the cron file can be written, [get_dns_cron_status] reads back
    what [update_dns_cron] wrote: the interval itself when it is not
    negative, and only ["Enabled"] when it is, since the pattern of the
    status does not match a minus sign; after [remove_dns_cron] the status
    is ["Disabled"]. *)
Theorem cron_status_reads_back_update hours d :
  DnsCron.write_error d = None →
  DnsCron.update_dns_cron hours d
  = ((true, "DNS auto-check scheduled every " +:+ Py.str_of_int hours
            +:+ " hours"),
     (DnsCron.update_dns_cron hours d).2) ∧
  DnsCron.get_dns_cron_status (DnsCron.update_dns_cron hours d).2
  = (true, if 0 <=? hours then "Every " +:+ Py.str_of_int hours +:+ " hours"
           else "Enabled") ∧
  DnsCron.get_dns_cron_status
    (DnsCron.remove_dns_cron (DnsCron.update_dns_cron hours d).2).2
  = (false, "Disabled").
Proof.
  intros Hw. split; [|split; [by apply status_after_update|]];
    unfold DnsCron.update_dns_cron; rewrite Hw; cbn [snd]; [reflexivity|].
  unfold DnsCron.get_dns_cron_status, DnsCron.remove_dns_cron,
    DnsCron.with_files.
  cbn [DnsCron.files DnsCron.write_error]. rewrite lookup_insert_eq, Hw.
  cbn [snd DnsCron.files]. by rewrite lookup_delete_eq.
Qed.

(** An instance: six hours, on a disk that holds no cron file yet. *)
Lemma cron_status_reads_back_update_witness :
  DnsCron.update_dns_cron 6 {| DnsCron.files := ∅;
                               DnsCron.write_error := None |}
  = ((true, "DNS auto-check scheduled every " +:+ Py.str_of_int 6
            +:+ " hours"),
     (DnsCron.update_dns_cron 6 {| DnsCron.files := ∅;
                                   DnsCron.write_error := None |}).2) ∧
  DnsCron.get_dns_cron_status
    (DnsCron.update_dns_cron 6 {| DnsCron.files := ∅;
                                  DnsCron.write_error := None |}).2
  = (true, if 0 <=? 6 then "Every " +:+ Py.str_of_int 6 +:+ " hours"
           else "Enabled") ∧
  DnsCron.get_dns_cron_status
    (DnsCron.remove_dns_cron
       (DnsCron.update_dns_cron 6 {| DnsCron.files := ∅;
                                     DnsCron.write_error := None |}).2).2
  = (false, "Disabled").
Proof.
  apply (cron_status_reads_back_update 6
           {| DnsCron.files := ∅; DnsCron.write_error := None |}).
  reflexivity.
Defined.

(** Whatever the operator answers, an interval that
    [prompt_check_interval] returns lies between 1 and 24 hours; written
    to a cron file that can be written, it is the interval the status
    shows afterwards. *)
Theorem prompted_interval_is_scheduled choice custom hours d :
  DnsUi.prompt_check_interval choice custom = Some hours →
  DnsCron.write_error d = None →
  1 ≤ hours ≤ 24 ∧
  DnsCron.get_dns_cron_status (DnsCron.update_dns_cron hours d).2
  = (true, "Every " +:+ Py.str_of_int hours +:+ " hours").
Proof.
  intros Hprompt Hw.
  assert (Hrange : 1 ≤ hours ≤ 24).
  { revert Hprompt. unfold DnsUi.prompt_check_interval.
    destruct (bool_decide (choice = "0")); [done|].
    destruct (bool_decide (choice = "7")).
    - destruct (Py.int custom) as [h|]; [|done].
      destruct (1 <=? h) eqn:H1; [|done].
      destruct (h <=? 24) eqn:H24; [|done].
      intros [= <-]. lia.
    - cbn [DnsUi.intervals DnsUi.lookup_choice].
      repeat (destruct (bool_decide (choice = _)); [intros [= <-]; lia|]).
      done. }
  split; [done|].
  rewrite status_after_update by done.
  destruct (Z.leb_spec 0 hours); [done|lia].
Qed.

(** An instance: the operator picks "custom" and types twelve. *)
Lemma prompted_interval_is_scheduled_witness :
  1 ≤ 12 ≤ 24 ∧
  DnsCron.get_dns_cron_status
    (DnsCron.update_dns_cron 12 {| DnsCron.files := ∅;
                                   DnsCron.write_error := None |}).2
  = (true, "Every " +:+ Py.str_of_int 12 +:+ " hours").
Proof.
  apply (prompted_interval_is_scheduled "7" " 12 " 12
           {| DnsCron.files := ∅; DnsCron.write_error := None |}).
  - vm_compute. reflexivity.
  - reflexivity.
Defined.

(** ** Order of the normalised candidates *)

Lemma normalize_fold_sublist raw : ∀ seen out,
  ∃ new,
    (fold_left Dns.normalize_step raw (seen, out)).2 = out ++ new ∧
    sublist new (stripped <$> raw).
Proof.
  induction raw as [|[name ip] raw IH]; intros seen out.
  { exists []. by rewrite app_nil_r. }
  cbn [fold_left Dns.normalize_step]. rewrite fmap_cons.
  destruct (bool_decide (Py.strip ip = "0.0.0.0") || bool_decide (Py.strip ip = "")).
  { destruct (IH seen out) as (new & -> & Hsub).
    exists new. split; [done|by apply sublist_cons]. }
  destruct (bool_decide (Py.strip ip ∈ seen)).
  { destruct (IH seen out) as (new & -> & Hsub).
    exists new. split; [done|by apply sublist_cons]. }
  destruct (IH ({[Py.strip ip]} ∪ seen) (out ++ [(Py.strip name, Py.strip ip)]))
    as (new & -> & Hsub).
  exists ((Py.strip name, Py.strip ip) :: new). rewrite <- app_assoc.
  split; [done|]. by apply sublist_skip.
Qed.

(** [normalize_dns_list] keeps the order of the raw list and adds nothing:
    its result is the list of stripped raw entries with some entries left
    out. *)
Theorem normalize_dns_list_keeps_order raw :
  sublist (Dns.normalize_dns_list raw) (stripped <$> raw).
Proof.
  unfold Dns.normalize_dns_list.
  destruct (normalize_fold_sublist raw ∅ []) as (new & -> & Hsub).
  exact Hsub.
Qed.
